(** * biblebot library scraper: the fetch-parse pipeline of
      [biblebot/api/lib.py] and [biblebot/api/library.py]

    The two Python modules turn a [Response] of the library portal into a
    [ResourceData] or an [ErrorData].  This development embeds their [parse]
    functions shallowly:

    - Python objects live in one dynamic universe [pyobj], because a Python
      function may return a value of any shape ([None], a list, a result
      object);
    - raising is explicit: a computation is an [Exc], either [Ok v] or
      [Raise e], and statements are sequenced with [x <- e ;; k];
    - the document-query capability (BeautifulSoup) and the date conversion
      are interfaces ([DocumentQuery], [DateConversion]); a concrete document
      tree with a small selector engine and an IMF-fixdate converter
      instantiate them further down;
    - a Python [str] is kept as its UTF-8 bytes and cut into characters where
      a character class matters: [str.strip] removes Unicode white space and
      [\d] matches the Unicode decimal digits. *)

From Stdlib Require Import ZArith Ascii String Strings.Byte List Bool Lia.
From stdpp Require Import base list strings.
Import ListNotations.

Local Open Scope string_scope.
Local Open Scope Z_scope.

Set Warnings "-register-all".

(** ** Python values *)

Inductive pyobj : Type :=
| PyNone
| PyStr (s : string)
| PyInt (z : Z)
| PyBytes (b : list byte)
| PyList (l : list pyobj)
| PyDict (d : list (string * pyobj))
(** Modelled from the spec: [ResourceData] of [biblebot/api/base.py], a
    mapping [data] and the resource [link]. *)
| PyResourceData (data : list (string * pyobj)) (link : string)
(** Modelled from the spec: [ErrorData] of [biblebot/api/base.py], a mapping
    [error] and the [link] at which the error occurred. *)
| PyErrorData (error : list (string * pyobj)) (link : string).

Definition is_ResourceData (v : pyobj) : bool :=
  match v with PyResourceData _ _ => true | _ => false end.

Definition is_ErrorData (v : pyobj) : bool :=
  match v with PyErrorData _ _ => true | _ => false end.

(** [APIResponseType]: the union [ResourceData | ErrorData]. *)
Definition is_APIResponseType (v : pyobj) : bool :=
  is_ResourceData v || is_ErrorData v.

Definition link_of (v : pyobj) : option string :=
  match v with
  | PyResourceData _ l | PyErrorData _ l => Some l
  | _ => None
  end.

(** [d[key]] on a dict literal, first binding. *)
Fixpoint dict_get (d : list (string * pyobj)) (key : string) : option pyobj :=
  match d with
  | [] => None
  | (k, v) :: d' => if String.eqb k key then Some v else dict_get d' key
  end.

Definition data_of (v : pyobj) : list (string * pyobj) :=
  match v with
  | PyResourceData d _ => d
  | _ => []
  end.

Definition error_of (v : pyobj) : list (string * pyobj) :=
  match v with
  | PyErrorData e _ => e
  | _ => []
  end.

Definition str_dict (d : list (string * string)) : pyobj :=
  PyDict (map (fun kv => (fst kv, PyStr (snd kv))) d).

Definition str_list (l : list string) : pyobj := PyList (map PyStr l).

Definition str_table (rows : list (list string)) : pyobj :=
  PyList (map str_list rows).

(** ** Exceptions and the error monad *)

Section Exceptions.
Context {R : Type}.

  (** [ParsingError] is the repository's structural fault
      ([biblebot/exceptions.py]); it carries a message and the offending
      response.  The others are Python's built-in exceptions;
      [ConversionError] stands for whatever [httpdate_to_unixtime] raises on
      a string it rejects. *)
Inductive exn : Type :=
  | ParsingError (msg : string) (response : R)
  | KeyError (key : string)
  | IndexError
  | AttributeError
  | TypeError
  | ConversionError (arg : string).

Inductive Exc (A : Type) : Type :=
  | Ok (a : A)
  | Raise (e : exn).

Definition is_ParsingError (e : exn) : bool :=
    match e with ParsingError _ _ => true | _ => false end.
End Exceptions.

Arguments exn R : clear implicits.
Arguments Exc R A : clear implicits.
Arguments Ok {R A} a.
Arguments Raise {R A} e.

Definition bind {R A B} (m : Exc R A) (k : A -> Exc R B) : Exc R B :=
  match m with
  | Ok a => k a
  | Raise e => Raise e
  end.

Notation "x <- m ;; k" := (bind m (fun x => k))
  (at level 100, m at next level, right associativity).

Definition raises {R A} (m : Exc R A) : Prop := exists e, m = Raise e.

Definition returns {R A} (m : Exc R A) : Prop := exists a, m = Ok a.

(** A [for] loop that appends one computed item per element. *)
Fixpoint for_each {R A B} (f : A -> Exc R B) (l : list A) : Exc R (list B) :=
  match l with
  | [] => Ok []
  | x :: l' => y <- f x ;; ys <- for_each f l' ;; Ok (y :: ys)
  end.

(** ** Built-in string operations *)

(** *** Characters

    [utf8_chars] cuts a string into its characters: a byte of 128 or more is
    taken together with the continuation bytes ([10xxxxxx]) that follow it,
    a byte below 128 is a character of its own. *)

Definition is_continuation (c : ascii) : bool :=
  let n := nat_of_ascii c in ((128 <=? n) && (n <? 192))%nat.

Definition starts_with_continuation (s : string) : bool :=
  match s with
  | String c _ => is_continuation c
  | EmptyString => false
  end.

Fixpoint utf8_chars (s : string) : list string :=
  match s with
  | EmptyString => []
  | String c s' =>
      match utf8_chars s' with
      | ch :: chs =>
          if starts_with_continuation ch && (128 <=? nat_of_ascii c)%nat
          then String c ch :: chs
          else String c EmptyString :: ch :: chs
      | [] => [String c EmptyString]
      end
  end.

(** ["".join(l)] *)
Definition join (l : list string) : string := fold_right String.append EmptyString l.

Definition continuation_bits (c : ascii) : option N :=
  if is_continuation c then Some (N_of_ascii c - 128)%N else None.

(** The code point that a character encodes; [None] for bytes that are not
    the UTF-8 encoding of one character. *)
Definition codepoint (ch : string) : option N :=
  match ch with
  | String a EmptyString =>
      let a := N_of_ascii a in
      if (a <? 128)%N then Some a else None
  | String a (String b EmptyString) =>
      let a := N_of_ascii a in
      match continuation_bits b with
      | Some b =>
          if ((192 <=? a) && (a <? 224))%N then Some ((a - 192) * 64 + b)%N else None
      | None => None
      end
  | String a (String b (String c EmptyString)) =>
      let a := N_of_ascii a in
      match continuation_bits b, continuation_bits c with
      | Some b, Some c =>
          if ((224 <=? a) && (a <? 240))%N
          then Some ((a - 224) * 4096 + b * 64 + c)%N else None
      | _, _ => None
      end
  | String a (String b (String c (String d EmptyString))) =>
      let a := N_of_ascii a in
      match continuation_bits b, continuation_bits c, continuation_bits d with
      | Some b, Some c, Some d =>
          if ((240 <=? a) && (a <? 248))%N
          then Some ((a - 240) * 262144 + b * 4096 + c * 64 + d)%N else None
      | _, _, _ => None
      end
  | _ => None
  end.

Definition in_range (lo hi n : N) : bool := ((lo <=? n) && (n <=? hi))%N.

(** The code points for which [str.isspace()] holds, which are the ones
    [str.strip()] removes. *)
Definition isspace_codepoint (n : N) : bool :=
  in_range 0x9 0xD n || in_range 0x1C 0x20 n || (n =? 0x85)%N || (n =? 0xA0)%N
  || (n =? 0x1680)%N || in_range 0x2000 0x200A n || in_range 0x2028 0x2029 n
  || (n =? 0x202F)%N || (n =? 0x205F)%N || (n =? 0x3000)%N.

Definition isspace (ch : string) : bool :=
  match codepoint ch with
  | Some n => isspace_codepoint n
  | None => false
  end.

(** The first code point of each run of decimal digits (Unicode 14, general
    category Nd); every run has ten digits but the mathematical digits at
    0x1D7CE, which are fifty. *)
Definition decimal_runs : list N :=
  [ 0x30; 0x660; 0x6F0; 0x7C0; 0x966; 0x9E6; 0xA66; 0xAE6; 0xB66; 0xBE6; 0xC66;
    0xCE6; 0xD66; 0xDE6; 0xE50; 0xED0; 0xF20; 0x1040; 0x1090; 0x17E0; 0x1810;
    0x1946; 0x19D0; 0x1A80; 0x1A90; 0x1B50; 0x1BB0; 0x1C40; 0x1C50; 0xA620;
    0xA8D0; 0xA900; 0xA9D0; 0xA9F0; 0xAA50; 0xABF0; 0xFF10; 0x104A0; 0x10D30;
    0x11066; 0x110F0; 0x11136; 0x111D0; 0x112F0; 0x11450; 0x114D0; 0x11650;
    0x116C0; 0x11730; 0x118E0; 0x11950; 0x11C50; 0x11D50; 0x11DA0; 0x16A60;
    0x16AC0; 0x16B50; 0x1E140; 0x1E2F0; 0x1E950; 0x1FBF0 ]%N.

(** The code points that [\d] matches in a [str] pattern. *)
Definition isdecimal_codepoint (n : N) : bool :=
  existsb (fun lo => in_range lo (lo + 9) n) decimal_runs
  || in_range 0x1D7CE 0x1D7FF n.

Definition isdecimal (ch : string) : bool :=
  match codepoint ch with
  | Some n => isdecimal_codepoint n
  | None => false
  end.

(** The characters left once the leading white space is dropped. *)
Fixpoint lstrip (chars : list string) : list string :=
  match chars with
  | ch :: chars' => if isspace ch then lstrip chars' else chars
  | [] => []
  end.

(** [s.strip()] *)
Definition strip (s : string) : string :=
  join (rev (lstrip (rev (lstrip (utf8_chars s))))).

(** [s.replace(c, "")] for a one-character [c]. *)
Fixpoint remove_char (c : ascii) (s : string) : string :=
  match s with
  | String a s' =>
      if Ascii.eqb a c then remove_char c s' else String a (remove_char c s')
  | EmptyString => EmptyString
  end.

Definition newline : ascii := ascii_of_nat 10.

(** [s[:n]] *)
Fixpoint slice_to (n : nat) (s : string) : string :=
  match n, s with
  | S n', String c s' => String c (slice_to n' s')
  | _, _ => EmptyString
  end.

(** [s[n:]] *)
Fixpoint slice_from (n : nat) (s : string) : string :=
  match n, s with
  | S n', String _ s' => slice_from n' s'
  | _, _ => s
  end.

(** One of the ten ASCII digits. *)
Definition is_ascii_digit (c : ascii) : bool :=
  let n := nat_of_ascii c in ((48 <=? n) && (n <=? 57))%nat.

Fixpoint decimals_prefix (chars : list string) : list string :=
  match chars with
  | ch :: chars' => if isdecimal ch then ch :: decimals_prefix chars' else []
  | [] => []
  end.

(** The longest prefix of decimal digits: what a greedy [\d*] consumes. *)
Definition digits_prefix (s : string) : string :=
  join (decimals_prefix (utf8_chars s)).

(** [re.match(r"https?://", s)] as a truth value. *)
Definition re_match_http (s : string) : bool :=
  String.prefix "http://" s || String.prefix "https://" s.

(** [ErrorCode=(\d+)] anchored at the start of [s]: group 1, if it matches. *)
Definition match_ErrorCode_here (s : string) : option string :=
  if String.prefix "ErrorCode=" s then
    match digits_prefix (slice_from 10 s) with
    | EmptyString => None
    | d => Some d
    end
  else None.

(** [re.search(r"ErrorCode=(\d+)", s)]: group 1 of the leftmost match. *)
Fixpoint re_search_ErrorCode (s : string) : option string :=
  match match_ErrorCode_here s with
  | Some d => Some d
  | None =>
      match s with
      | String _ s' => re_search_ErrorCode s'
      | EmptyString => None
      end
  end.

(** *** Base64

    [base64.b64encode] on byte strings.  In the byte-string model
    [str.encode()] and [bytes.decode()] are the identity, so
    [b64encode(s.encode()).decode()] is [b64encode s]. *)

Definition b64_alphabet : string :=
  "ABCDEFGHIJKLMNOPQRSTUVWXYZabcdefghijklmnopqrstuvwxyz0123456789+/".

(** Six bits, most significant first. *)
Definition sextet : Type := (bool * bool * bool * bool * bool * bool)%type.

Definition sextet_index (x : sextet) : nat :=
  let '(b5, b4, b3, b2, b1, b0) := x in
  ((if b5 then 32 else 0) + (if b4 then 16 else 0) + (if b3 then 8 else 0)
   + (if b2 then 4 else 0) + (if b1 then 2 else 0) + (if b0 then 1 else 0))%nat.

Definition b64_char (x : sextet) : ascii :=
  match String.get (sextet_index x) b64_alphabet with
  | Some c => c
  | None => "="%char
  end.

Fixpoint index_of (c : ascii) (s : string) : option nat :=
  match s with
  | EmptyString => None
  | String a s' => if Ascii.eqb a c then Some 0%nat else option_map S (index_of c s')
  end.

Definition b64_sextet (c : ascii) : option sextet :=
  match index_of c b64_alphabet with
  | Some n =>
      Some (Nat.testbit n 5, Nat.testbit n 4, Nat.testbit n 3,
            Nat.testbit n 2, Nat.testbit n 1, Nat.testbit n 0)
  | None => None
  end.

(** [b64encode]: three bytes give four characters; a last group of one or
    two bytes is filled with zero bits and padded with ["="]. *)
Fixpoint b64encode (s : string) : string :=
  match s with
  | EmptyString => EmptyString
  | String (Ascii x0 x1 x2 x3 x4 x5 x6 x7) EmptyString =>
      String (b64_char (x7, x6, x5, x4, x3, x2))
        (String (b64_char (x1, x0, false, false, false, false)) "==")
  | String (Ascii x0 x1 x2 x3 x4 x5 x6 x7)
      (String (Ascii y0 y1 y2 y3 y4 y5 y6 y7) EmptyString) =>
      String (b64_char (x7, x6, x5, x4, x3, x2))
        (String (b64_char (x1, x0, y7, y6, y5, y4))
           (String (b64_char (y3, y2, y1, y0, false, false)) "="))
  | String (Ascii x0 x1 x2 x3 x4 x5 x6 x7)
      (String (Ascii y0 y1 y2 y3 y4 y5 y6 y7)
         (String (Ascii z0 z1 z2 z3 z4 z5 z6 z7) s')) =>
      String (b64_char (x7, x6, x5, x4, x3, x2))
        (String (b64_char (x1, x0, y7, y6, y5, y4))
           (String (b64_char (y3, y2, y1, y0, z7, z6))
              (String (b64_char (z5, z4, z3, z2, z1, z0)) (b64encode s'))))
  end.

(** [b64decode] on canonical input: groups of four characters, padding only
    in the last group. *)
Fixpoint b64decode (s : string) : option string :=
  match s with
  | EmptyString => Some EmptyString
  | String a (String b (String c (String d rest))) =>
      match b64_sextet a, b64_sextet b with
      | Some (x7, x6, x5, x4, x3, x2), Some (x1, x0, y7, y6, y5, y4) =>
          let x := Ascii x0 x1 x2 x3 x4 x5 x6 x7 in
          if Ascii.eqb d "=" then
            match rest with
            | EmptyString =>
                if Ascii.eqb c "=" then Some (String x EmptyString)
                else
                  match b64_sextet c with
                  | Some (y3, y2, y1, y0, _, _) =>
                      Some (String x (String (Ascii y0 y1 y2 y3 y4 y5 y6 y7) EmptyString))
                  | None => None
                  end
            | _ => None
            end
          else
            match b64_sextet c, b64_sextet d, b64decode rest with
            | Some (y3, y2, y1, y0, z7, z6), Some (z5, z4, z3, z2, z1, z0), Some r =>
                Some (String x
                        (String (Ascii y0 y1 y2 y3 y4 y5 y6 y7)
                           (String (Ascii z0 z1 z2 z3 z4 z5 z6 z7) r)))
            | _, _, _ => None
            end
      | _, _ => None
      end
  | _ => None
  end.

(** *** Calls with keyword arguments

    A call [f(..., name=value, **kwargs)] raises [TypeError] when [kwargs]
    holds a keyword that the call passes itself. *)
Definition keyword_clash (passed : list string) (kwargs : list (string * pyobj))
    : bool :=
  existsb (fun kv => existsb (String.eqb (fst kv)) passed) kwargs.

(** ** Built-in list operations, with Python's index rules *)

(** A Python index, negative ones counting from the end; [None] when it is
    out of range. *)
Definition norm_index (len : nat) (i : Z) : option nat :=
  let j := if i <? 0 then i + Z.of_nat len else i in
  if (0 <=? j) && (j <? Z.of_nat len) then Some (Z.to_nat j) else None.

Section ListOps.
Context {R A : Type}.

  (** [l[i]] *)
Definition getitem (l : list A) (i : Z) : Exc R A :=
    match norm_index (length l) i with
    | Some n => match l !! n with Some x => Ok x | None => Raise IndexError end
    | None => Raise IndexError
    end.

  (** [l[i] = x] *)
Definition setitem (l : list A) (i : Z) (x : A) : Exc R (list A) :=
    match norm_index (length l) i with
    | Some n => Ok (<[n:=x]> l)
    | None => Raise IndexError
    end.

  (** [del l[i]] *)
Definition delitem (l : list A) (i : Z) : Exc R (list A) :=
    match norm_index (length l) i with
    | Some n => Ok (delete n l)
    | None => Raise IndexError
    end.
End ListOps.

(** ** Consumed interfaces *)

(** The document-query capability: [tag.select(selector)] in document order,
    [tag.text], and [tag[key]] ([None] when the attribute is absent). *)
Class DocumentQuery (Tag : Type) : Type := {
  select : Tag -> string -> list Tag;
  text : Tag -> string;
  attr : Tag -> string -> option string
}.

(** [httpdate_to_unixtime] of [biblebot/api/common.py]; [None] when it
    rejects its argument. *)
Class DateConversion : Type := {
  httpdate_to_unixtime : string -> option Z
}.

(** Modelled from the spec: the transport [HTTPClient.connector] of
    [biblebot/api/base.py], [get(url, cookies, headers, timeout, **kwargs)]
    and [post(url, headers, body, timeout, **kwargs)].  An argument the call
    does not pass is [None]; what the transport makes of the call, a response
    or a failure of its own, is the type [Reply]. *)
Class HTTPClient (Timeout Reply : Type) : Type := {
  connector_get :
    string -> option (list (string * string)) -> option (list (string * string)) ->
    option Timeout -> list (string * pyobj) -> Reply;
  connector_post :
    string -> option (list (string * string)) -> list (string * string) ->
    option Timeout -> list (string * pyobj) -> Reply
}.

Definition lower_ascii (c : ascii) : ascii :=
  let n := nat_of_ascii c in
  if ((65 <=? n) && (n <=? 90))%nat then ascii_of_nat (n + 32) else c.

Fixpoint lower (s : string) : string :=
  match s with
  | String c s' => String (lower_ascii c) (lower s')
  | EmptyString => EmptyString
  end.

(** Modelled from the spec: the header mapping of [Response]
    ([biblebot/reqeust/base.py]), whose lookups are case-insensitive. *)
Fixpoint headers_get (h : list (string * string)) (key : string) : option string :=
  match h with
  | [] => None
  | (k, v) :: h' =>
      if String.eqb (lower k) (lower key) then Some v else headers_get h' key
  end.

(** [key in headers] *)
Definition headers_contains (h : list (string * string)) (key : string) : bool :=
  match headers_get h key with Some _ => true | None => false end.

Section ResponseModel.
Context {Tag : Type} `{DocumentQuery Tag}.

  (** Modelled from the spec: [Response] of [biblebot/reqeust/base.py]:
      status code, header mapping, cookie mapping, raw body bytes, the
      request URL and the parsed-document view. *)
Record Response : Type := {
    status : Z;
    headers : list (string * string);
    cookies : list (string * string);
    raw : list byte;
    url : string;
    soup : Tag
  }.

Definition E := Exc Response.

  (** [headers[key]] *)
Definition headers_getitem (h : list (string * string)) (key : string) : E string :=
    match headers_get h key with
    | Some v => Ok v
    | None => Raise (KeyError key)
    end.

  (** [tag.select_one(selector)]: the first match or [None]. *)
Definition select_one (t : Tag) (selector : string) : option Tag :=
    head (select t selector).

  (** [x.text] where [x] is a tag or [None]. *)
Definition text_of (x : option Tag) : E string :=
    match x with
    | Some t => Ok (text t)
    | None => Raise AttributeError
    end.

  (** [x.select(selector)] where [x] is a tag or [None]. *)
Definition select_of (x : option Tag) (selector : string) : E (list Tag) :=
    match x with
    | Some t => Ok (select t selector)
    | None => Raise AttributeError
    end.

  (** [t[key]] on a tag. *)
Definition tag_getitem (t : Tag) (key : string) : E string :=
    match attr t key with
    | Some v => Ok v
    | None => Raise (KeyError key)
    end.

  (** [x[key]] where [x] is a tag or [None]. *)
Definition getitem_of (x : option Tag) (key : string) : E string :=
    match x with
    | Some t => tag_getitem t key
    | None => Raise TypeError
    end.

  (** [httpdate_to_unixtime(s)] *)
Definition convert_date `{DateConversion} (s : string) : E Z :=
    match httpdate_to_unixtime s with
    | Some t => Ok t
    | None => Raise (ConversionError s)
    end.

  (** *** The precondition gate *)

  (** A gated call yields its outcome together with the number of times the
      wrapped function was entered. *)
Record Gated : Type := {
    outcome : E pyobj;
    wrapped_calls : nat
  }.

  (** The first blocking error among the registered checks. *)
Fixpoint first_blocking (checks : list (Response -> option pyobj))
      (response : Response) : option pyobj :=
    match checks with
    | [] => None
    | c :: cs =>
        match c response with
        | Some err => Some err
        | None => first_blocking cs response
        end
    end.

  (** Modelled from the spec: the decorator [ParserPrecondition] of
      [biblebot/api/base.py]: run the checks in registration order, return
      the first blocking [ErrorData]; if none blocks, invoke the wrapped
      [parse] and return its result unchanged. *)
Definition ParserPrecondition (checks : list (Response -> option pyobj))
      (func : Response -> E pyobj) (response : Response) : Gated :=
    match first_blocking checks response with
    | Some err => {| outcome := Ok err; wrapped_calls := 0 |}
    | None => {| outcome := func response; wrapped_calls := 1 |}
    end.
End ResponseModel.

Arguments Response Tag : clear implicits.
Arguments E Tag A : clear implicits.
Arguments Gated Tag : clear implicits.

(** Modelled from the spec: the interface [IParserPrecondition] of
    [biblebot/api/intranet.py], shared by every module of the package.
    [registered] are the checks registered with it, the subclasses of the
    interface, in registration order.  Each check returns either no objection
    or an [ErrorData] (spec 4.2) whose link is the URL at which the error
    occurred (spec 3). *)
Class IParserPrecondition (Tag : Type) : Type := {
  registered : list (Response Tag -> option pyobj);
  registered_contract :
    forall check response err,
      In check registered -> check response = Some err ->
      is_ErrorData err = true /\ link_of err = Some (url response)
}.

(** ** [biblebot/api/lib.py] *)

Module lib.

Definition DOMAIN_NAME : string := "https://lib.bible.ac.kr".

Module _SessionExpiredChecker.
Section Checker.
Context {Tag : Type}.

Definition is_blocking (response : Response Tag) : option pyobj :=
      if status response =? 302 then
        Some (PyErrorData
                [("title", PyStr "세션이 만료되어 로그인페이지로 리다이렉트 되었습니다.")]
                (url response))
      else None.
End Checker.
End _SessionExpiredChecker.

(** [_ParserPrecondition = ParserPrecondition(IParserPrecondition)]: the gate
    is built from the shared interface, so it runs every check registered
    with it; [_SessionExpiredChecker] above is one of them. *)
Definition _ParserPrecondition {Tag : Type} `{IParserPrecondition Tag} :=
  ParserPrecondition (Tag := Tag) registered.

Module Login.

Definition URL : string := DOMAIN_NAME +:+ "/Account/LogOn".

Section Fetcher.
Context {Timeout Reply : Type} `{HTTPClient Timeout Reply}.

Definition fetch (user_id user_pw : string)
    (headers : option (list (string * string))) (timeout : option Timeout)
    (kwargs : list (string * pyobj)) : Exc Reply Reply :=
  let form := [("l_id", b64encode user_id); ("l_pass", b64encode user_pw)] in
  if keyword_clash ["headers"; "body"; "timeout"] kwargs then Raise TypeError
  else Ok (connector_post URL headers form timeout kwargs).

Definition fetch_main_page (cookies : list (string * string))
    (headers : option (list (string * string))) (timeout : option Timeout)
    (kwargs : list (string * pyobj)) : Exc Reply Reply :=
  if keyword_clash ["cookies"; "headers"; "timeout"] kwargs then Raise TypeError
  else Ok (connector_get "http://lib.bible.ac.kr" (Some cookies) headers timeout kwargs).

End Fetcher.

Section Parser.
Context {Tag : Type} `{DocumentQuery Tag} `{DateConversion}.

Definition parse (response : Response Tag) (cookies : list (string * string))
        : E Tag pyobj :=
      let soup := soup response in
      let ul := select_one soup "#sponge-header .infoBox" in
      lis <- select_of ul "li" ;;
      li1 <- getitem lis 1 ;;
      let li := text li1 in
      date <- headers_getitem (headers response) "date" ;;
      iat <- convert_date date ;;
      if String.eqb li "HOME" then
        Ok (PyErrorData
              [("title", PyStr "로그인에 실패하였습니다. 정확한 정보를 입력하세요.")]
              (url response))
      else
        Ok (PyResourceData
              [("cookies", str_dict cookies);
               ("validate-content", PyStr li);
               ("iat", PyInt iat)]
              (url response)).
End Parser.
End Login.

Module Library.

Definition URL : string := DOMAIN_NAME +:+ "/MyLibrary".

Section Fetcher.
Context {Timeout Reply : Type} `{HTTPClient Timeout Reply}.

Definition fetch (cookies : list (string * string))
    (headers : option (list (string * string))) (timeout : option Timeout)
    (kwargs : list (string * pyobj)) : Exc Reply Reply :=
  if keyword_clash ["cookies"; "headers"; "timeout"] kwargs then Raise TypeError
  else Ok (connector_get URL (Some cookies) headers timeout kwargs).
End Fetcher.

Section Parser.
Context {Tag : Type} `{DocumentQuery Tag} `{IParserPrecondition Tag}.

Definition parse_subject (response : Response Tag) : E Tag (list string) :=
      let soup := soup response in
      match select_one soup ".sponge-guide-Box-table thead tr" with
      | None => Raise (ParsingError "테이블 헤드가 존재하지 않습니다." response)
      | Some thead =>
          let head := map (fun th => strip (text th)) (select thead "th") in
          head <- delitem head 4 ;;
          head <- setitem head (-1) "도서URL" ;;
          Ok head
      end.

    (** The body of the [for tr in tbody] loop. *)
Definition parse_row (tr : Tag) : E Tag (list string) :=
      num <- text_of (select_one tr ".right5") ;;
      let num := remove_char newline num in
      title <- text_of (select_one tr "td a strong") ;;
      loan <- getitem (select tr ".left ul li strong") 0 ;;
      let loan_date := text loan in
      ret <- getitem (select tr ".left ul li strong") 1 ;;
      let return_date := text ret in
      state <- text_of (select_one tr "td .textcolorgreen") ;;
      td6 <- getitem (select tr "td") 6 ;;
      let term := remove_char newline (text td6) in
      td7 <- getitem (select tr "td") 7 ;;
      let term_cnt := remove_char newline (text td7) in
      a <- getitem (select tr ".left a") 0 ;;
      url <- tag_getitem a "href" ;;
      Ok [num; title; loan_date; return_date; state; term; term_cnt; url].

Definition parse_main_table (response : Response Tag)
        : E Tag (list (list string)) :=
      let soup := soup response in
      let tbody := select soup ".sponge-guide-Box-table tbody tr" in
      match tbody with
      | [] => Raise (ParsingError "테이블 바디가 존재하지 않습니다." response)
      | _ => for_each parse_row tbody
      end.

    (** [parse] before decoration. *)
Definition parse_undecorated (response : Response Tag) : E Tag pyobj :=
      head <- parse_subject response ;;
      body <- parse_main_table response ;;
      Ok (PyResourceData
            [("head", str_list head); ("body", str_table body)]
            (url response)).

Definition parse : Response Tag -> Gated Tag :=
      _ParserPrecondition parse_undecorated.
End Parser.
End Library.

Module BookPhoto.

Section Fetcher.
Context {Timeout Reply : Type} `{HTTPClient Timeout Reply}.

Definition fetch (photo_url : string) (cookies : option (list (string * string)))
    (headers : option (list (string * string))) (timeout : option Timeout)
    (kwargs : list (string * pyobj)) : Exc Reply Reply :=
  if keyword_clash ["cookies"; "headers"; "timeout"] kwargs then Raise TypeError
  else Ok (connector_get photo_url cookies headers timeout kwargs).
End Fetcher.

Section Parser.
Context {Tag : Type} `{DocumentQuery Tag}.

Definition parse (response : Response Tag) : E Tag pyobj :=
      let soup := soup response in
      img_url <- getitem_of (select_one soup ".page-detail-title-image a img") "src" ;;
      if re_match_http img_url then
        Ok (PyResourceData [("img_url", PyStr img_url)] (url response))
      else
        Ok (PyErrorData [("title", PyStr "이미지를 불러올 수 없습니다.")] (url response)).
End Parser.
End BookPhoto.

End lib.

(** ** [biblebot/api/library.py] *)

Module library.

Definition DOMAIN_NAME : string := "https://lib.bible.ac.kr".

Module _SessionExpiredChecker.
Section Checker.
Context {Tag : Type}.

Definition is_blocking (response : Response Tag) : option pyobj :=
      if status response =? 302 then
        Some (PyErrorData
                [("title", PyStr "세션이 만료되어 로그인페이지로 리다이렉트 되었습니다.")]
                (url response))
      else None.
End Checker.
End _SessionExpiredChecker.

(** [_ParserPrecondition = ParserPrecondition(IParserPrecondition)]: the gate
    is built from the shared interface, so it runs every check registered
    with it; [_SessionExpiredChecker] above is one of them. *)
Definition _ParserPrecondition {Tag : Type} `{IParserPrecondition Tag} :=
  ParserPrecondition (Tag := Tag) registered.

Module Login.

Definition URL : string := DOMAIN_NAME +:+ "/Account/LogOn".

Section Fetcher.
Context {Timeout Reply : Type} `{HTTPClient Timeout Reply}.

Definition fetch (user_id user_pw : string)
    (headers : option (list (string * string))) (timeout : option Timeout)
    (kwargs : list (string * pyobj)) : Exc Reply Reply :=
  let form := [("l_id", b64encode user_id); ("l_pass", b64encode user_pw)] in
  if keyword_clash ["headers"; "body"; "timeout"] kwargs then Raise TypeError
  else Ok (connector_post URL headers form timeout kwargs).

End Fetcher.

Section Parser.
Context {Tag : Type} `{DocumentQuery Tag} `{DateConversion}.

Definition parse (response : Response Tag) : E Tag pyobj :=
      let soup := soup response in
      if negb (headers_contains (headers response) "location") then
        alert <- text_of (select_one soup ".alert-warning") ;;
        let alert := strip alert in
        Ok (PyErrorData [("title", PyStr alert)] (url response))
      else
        location <- headers_getitem (headers response) "location" ;;
        match re_search_ErrorCode location with
        | Some error_code =>
            Ok (PyErrorData [("code", PyStr error_code)] (url response))
        | None =>
            date <- headers_getitem (headers response) "date" ;;
            iat <- convert_date date ;;
            Ok (PyResourceData
                  [("cookies", str_dict (cookies response)); ("iat", PyInt iat)]
                  (url response))
        end.
End Parser.
End Login.

Module CheckoutList.

Definition URL : string := DOMAIN_NAME +:+ "/MyLibrary".

Section Fetcher.
Context {Timeout Reply : Type} `{HTTPClient Timeout Reply}.

Definition fetch (cookies : list (string * string))
    (headers : option (list (string * string))) (timeout : option Timeout)
    (kwargs : list (string * pyobj)) : Exc Reply Reply :=
  if keyword_clash ["cookies"; "headers"; "timeout"] kwargs then Raise TypeError
  else Ok (connector_get URL (Some cookies) headers timeout kwargs).
End Fetcher.

Section Parser.
Context {Tag : Type} `{DocumentQuery Tag} `{IParserPrecondition Tag}.

Definition parse_subject (response : Response Tag) : E Tag (list string) :=
      let soup := soup response in
      match select_one soup ".sponge-guide-Box-table thead tr" with
      | None => Raise (ParsingError "테이블 헤드가 존재하지 않습니다." response)
      | Some thead =>
          let head := map (fun th => strip (text th)) (select thead "th") in
          head <- delitem head 4 ;;
          head <- setitem head 0 "ISBN" ;;
          head <- setitem head (-1) "도서이미지" ;;
          Ok head
      end.

    (** The body of the [for tr in tbody] loop. *)
Definition parse_row (tr : Tag) : E Tag (list string) :=
      let info := map (fun td => strip (text td)) (select tr "td") in
      title <- text_of (select_one tr "td a strong") ;;
      info <- setitem info 1 (strip title) ;;
      a <- getitem (select tr ".left a") 0 ;;
      href <- tag_getitem a "href" ;;
      info <- setitem info (-1) href ;;
      info <- delitem info 4 ;;
      Ok info.

Definition parse_main_table (response : Response Tag)
        : E Tag (list (list string)) :=
      let soup := soup response in
      let tbody := select soup ".sponge-guide-Box-table tbody tr" in
      match tbody with
      | [] => Raise (ParsingError "테이블 바디가 존재하지 않습니다." response)
      | _ => for_each parse_row tbody
      end.

    (** [parse] before decoration. *)
Definition parse_undecorated (response : Response Tag) : E Tag pyobj :=
      head <- parse_subject response ;;
      body <- parse_main_table response ;;
      Ok (PyResourceData
            [("head", str_list head); ("body", str_table body)]
            (url response)).

Definition parse : Response Tag -> Gated Tag :=
      _ParserPrecondition parse_undecorated.
End Parser.
End CheckoutList.

Module BookDetail.

Section Fetcher.
Context {Timeout Reply : Type} `{HTTPClient Timeout Reply}.

Definition fetch (path : string)
    (headers : option (list (string * string))) (timeout : option Timeout)
    (kwargs : list (string * pyobj)) : Exc Reply Reply :=
  if keyword_clash ["headers"; "timeout"] kwargs then Raise TypeError
  else Ok (connector_get (DOMAIN_NAME +:+ path) None headers timeout kwargs).
End Fetcher.

Section Parser.
Context {Tag : Type} `{DocumentQuery Tag}.

Definition parse (response : Response Tag) : E Tag pyobj :=
      let soup := soup response in
      cell <- getitem (select soup "#detailtoprightnew .sponge-book-list-data") 1 ;;
      let isbn := strip (text cell) in
      img_url <- getitem_of (select_one soup ".page-detail-title-image a img") "src" ;;
      let img_url := if negb (re_match_http img_url) then PyNone else PyStr img_url in
      Ok (PyList [PyStr isbn; img_url]).
End Parser.
End BookDetail.

Module BookPhoto.

Section Fetcher.
Context {Timeout Reply : Type} `{HTTPClient Timeout Reply}.

Definition fetch (photo_url : string)
    (headers : option (list (string * string))) (timeout : option Timeout)
    (kwargs : list (string * pyobj)) : Exc Reply Reply :=
  if keyword_clash ["headers"; "timeout"] kwargs then Raise TypeError
  else Ok (connector_get photo_url None headers timeout kwargs).
End Fetcher.

Section Parser.
Context {Tag : Type}.

    (** The function has no [else] branch: when the test fails, control
        falls off its end and Python returns [None]. *)
Definition parse (response : Response Tag) : E Tag pyobj :=
      content_type <- headers_getitem (headers response) "content-type" ;;
      if String.eqb (slice_to 5 content_type) "image" then
        Ok (PyResourceData [("raw_image", PyBytes (raw response))] (url response))
      else
        Ok PyNone.
End Parser.
End BookPhoto.

End library.

(** ** A concrete document model

    An instance of the document-query capability: an element tree, and
    selectors made of tag names, [.class] and [#id] tests joined by the
    descendant combinator, which is all the two modules use. *)

Module Html.

Inductive Node : Type :=
  | Text (s : string)
  | Element (name : string) (attrs : list (string * string)) (children : list Node).

  (** The name and attributes of an element. *)
Definition Start : Type := (string * list (string * string))%type.

  (** A tag handle: a node together with its enclosing elements, innermost
      first, so that a selector can test ancestors outside the scope. *)
Record Tag : Type := {
    enclosing : list Start;
    node : Node
  }.

Fixpoint lookup_attr (attrs : list (string * string)) (key : string) : option string :=
    match attrs with
    | [] => None
    | (k, v) :: attrs' => if String.eqb k key then Some v else lookup_attr attrs' key
    end.

Definition has_class (attrs : list (string * string)) (c : string) : bool :=
    match lookup_attr attrs "class" with
    | Some v => existsb (String.eqb c) (String.words v)
    | None => false
    end.

  (** One simple selector against one element. *)
Definition matches_simple (sel : string) (e : Start) : bool :=
    match sel with
    | String "." c => has_class (snd e) c
    | String "#" i =>
        match lookup_attr (snd e) "id" with
        | Some v => String.eqb v i
        | None => false
        end
    | _ => String.eqb (fst e) sel
    end.

  (** The remaining simple selectors, innermost first, against the chain of
      enclosing elements. *)
Fixpoint matches_enclosing (sels : list string) (chain : list Start) : bool :=
    match chain with
    | [] => match sels with [] => true | _ => false end
    | e :: chain' =>
        match sels with
        | [] => true
        | s :: sels' =>
            if matches_simple s e then matches_enclosing sels' chain'
            else matches_enclosing sels chain'
        end
    end.

Definition matches (selector : string) (t : Tag) : bool :=
    match rev (String.words selector), node t with
    | s :: sels, Element name attrs _ =>
        matches_simple s (name, attrs) && matches_enclosing sels (enclosing t)
    | _, _ => false
    end.

  (** The elements strictly below a node, in document order. *)
Fixpoint descendants (chain : list Start) (n : Node) : list Tag :=
    match n with
    | Text _ => []
    | Element name attrs children =>
        let chain' := (name, attrs) :: chain in
        flat_map
          (fun c =>
             match c with
             | Text _ => []
             | Element _ _ _ =>
                 {| enclosing := chain'; node := c |} :: descendants chain' c
             end)
          children
    end.

Fixpoint node_text (n : Node) : string :=
    match n with
    | Text s => s
    | Element _ _ children =>
        fold_right (fun c acc => String.append (node_text c) acc) "" children
    end.

Definition document (root : Node) : Tag := {| enclosing := []; node := root |}.

#[global] Instance query : DocumentQuery Tag := {|
    select t selector :=
      List.filter (matches selector) (descendants (enclosing t) (node t));
    text t := node_text (node t);
    attr t key :=
      match node t with
      | Element _ attrs _ => lookup_attr attrs key
      | Text _ => None
      end
  |}.

End Html.

(** ** A concrete date conversion *)

Module HttpDate.

Definition digit_value (c : ascii) : option Z :=
    if is_ascii_digit c then Some (Z.of_nat (nat_of_ascii c) - 48) else None.

Fixpoint number_from (acc : Z) (s : string) : option Z :=
    match s with
    | EmptyString => Some acc
    | String c s' =>
        match digit_value c with
        | Some d => number_from (10 * acc + d) s'
        | None => None
        end
    end.

Definition number (s : string) : option Z :=
    match s with
    | EmptyString => None
    | _ => number_from 0 s
    end.

Definition months : list string :=
    ["Jan"; "Feb"; "Mar"; "Apr"; "May"; "Jun";
     "Jul"; "Aug"; "Sep"; "Oct"; "Nov"; "Dec"].

Fixpoint month_from (i : Z) (names : list string) (s : string) : option Z :=
    match names with
    | [] => None
    | n :: names' => if String.eqb n s then Some i else month_from (i + 1) names' s
    end.

  (** Days from 1970-01-01 to the given day of the proleptic Gregorian
      calendar. *)
Definition days_from_civil (y m d : Z) : Z :=
    let y' := if m <=? 2 then y - 1 else y in
    let era := y' / 400 in
    let yoe := y' - era * 400 in
    let mp := if m <=? 2 then m + 9 else m - 3 in
    let doy := (153 * mp + 2) / 5 + d - 1 in
    let doe := yoe * 365 + yoe / 4 - yoe / 100 + doy in
    era * 146097 + doe - 719468.

(** The fields of an IMF-fixdate such as ["Tue, 15 Mar 2022 04:00:00 GMT"]:
    year, month, day, hour, minute and second. *)
Definition fields (s : string) : option (Z * Z * Z * Z * Z * Z) :=
  if negb (String.eqb (substring 3 2 s) ", " && String.eqb (substring 25 4 s) " GMT"
           && (String.length s =? 29)%nat) then None
  else
    match number (substring 5 2 s), month_from 1 months (substring 8 3 s),
          number (substring 12 4 s), number (substring 17 2 s),
          number (substring 20 2 s), number (substring 23 2 s) with
    | Some d, Some m, Some y, Some hh, Some mm, Some ss => Some (y, m, d, hh, mm, ss)
    | _, _, _, _, _, _ => None
    end.

(** Modelled from the spec: [httpdate_to_unixtime] of
    [biblebot/api/common.py], the conversion of an HTTP-format date string
    such as ["Tue, 15 Mar 2022 04:00:00 GMT"] to a Unix timestamp. *)
Definition to_unixtime (s : string) : option Z :=
  match fields s with
  | Some (y, m, d, hh, mm, ss) =>
      Some (days_from_civil y m d * 86400 + hh * 3600 + mm * 60 + ss)
  | None => None
  end.

(** The days before the year [y'] of the shifted calendar, which begins in
    March. *)
Definition era_days (y' : Z) : Z :=
  let era := y' / 400 in
  let yoe := y' - era * 400 in
  era * 146097 + yoe * 365 + yoe / 4 - yoe / 100.

(** *** Unix time, by counting

    The reference against which the conversion is checked: the Unix time of
    a date is the number of seconds since 1970-01-01 00:00:00 GMT, every day
    of the Gregorian calendar counting 86400 seconds. *)

Definition is_leap (y : Z) : bool :=
  ((y mod 4 =? 0) && negb (y mod 100 =? 0)) || (y mod 400 =? 0).

Definition days_in_year (y : Z) : Z := if is_leap y then 366 else 365.

Definition days_in_month (y m : Z) : Z :=
  if m =? 2 then (if is_leap y then 29 else 28)
  else if (m =? 4) || (m =? 6) || (m =? 9) || (m =? 11) then 30
  else 31.

(** The days of the [n] years that begin with the year [y0]. *)
Fixpoint days_of_years (n : nat) (y0 : Z) : Z :=
  match n with
  | O => 0
  | S n' => days_in_year y0 + days_of_years n' (y0 + 1)
  end.

(** The days of the first [n] months of the year [y]. *)
Fixpoint days_of_months (y : Z) (n : nat) : Z :=
  match n with
  | O => 0
  | S n' => days_of_months y n' + days_in_month y (Z.of_nat n)
  end.

Definition days_since_epoch (y m d : Z) : Z :=
  days_of_years (Z.to_nat (y - 1970)) 1970 + days_of_months y (Z.to_nat (m - 1))
  + (d - 1).

Definition unix_time (y m d hh mm ss : Z) : Z :=
  days_since_epoch y m d * 86400 + hh * 3600 + mm * 60 + ss.

#[global] Instance conversion : DateConversion := {|
    httpdate_to_unixtime := to_unixtime
  |}.

End HttpDate.

(** ** Sample pages *)

Module Samples.
Import Html.

Definition el (name : string) (class : string) (children : list Node) : Node :=
    Element name (match class with EmptyString => [] | _ => [("class", class)] end)
            children.

Definition th (label : string) : Node := el "th" "" [Text label].

Definition td (s : string) : Node := el "td" "" [Text s].

  (** One row of the checkout list: eight cells. *)
Definition checkout_row (num title loan due state href : string) : Node :=
    el "tr" ""
      [ el "td" "right5" [Text num];
        el "td" "left"
          [ Element "a" [("href", href)] [el "strong" "" [Text title]];
            el "ul" ""
              [ el "li" "" [el "strong" "" [Text loan]];
                el "li" "" [el "strong" "" [Text due]] ] ];
        td loan;
        td due;
        td " - ";
        el "td" "" [el "span" "textcolorgreen" [Text state]];
        td (String newline "0");
        td (String newline "1") ].

Definition table (header : list Node) (rows : list Node) : Node :=
    el "html" ""
      [ el "table" "sponge-guide-Box-table"
          [ el "thead" "" [el "tr" "" header];
            el "tbody" "" rows ] ].

Definition rows2 : list Node :=
    [ checkout_row (String newline "1") "Coq'Art" "2023-01-01" "2023-01-15"
        "대출중" "/Search/Detail/1";
      checkout_row (String newline "2") "SICP" "2023-01-02" "2023-01-16"
        "대출중" "/Search/Detail/2" ].

Definition header8 : list Node :=
    map th ["번호"; "서지정보"; "대출일자"; "반납예정일"; "반납조건"; "대출상태";
            "연기신청"; "비고"].

Definition header9 : list Node :=
    map th ["번호"; "서지정보"; "대출일자"; "반납예정일"; "반납조건"; "대출상태";
            "연기신청"; "연기횟수"; "비고"].

Definition header5 : list Node :=
    map th ["번호"; "서지정보"; "대출일자"; "반납예정일"; "비고"].

Definition response (st : Z) (hs : list (string * string)) (page : Node)
      : Response Tag :=
    {| status := st;
       headers := hs;
       cookies := [("ASP.NET_SessionId", "abc")];
       raw := [x89; x50; x4e; x47];
       url := "https://lib.bible.ac.kr/MyLibrary";
       soup := document page |}.

Definition date_header : string * string :=
    ("Date", "Tue, 15 Mar 2022 04:00:00 GMT").

  (** Checkout lists. *)
Definition checkout_page8 : Response Tag := response 200 [date_header] (table header8 rows2).
Definition checkout_page9 : Response Tag := response 200 [date_header] (table header9 rows2).
Definition checkout_page5 : Response Tag := response 200 [date_header] (table header5 rows2).
Definition checkout_empty : Response Tag := response 200 [date_header] (table header8 []).
Definition checkout_expired : Response Tag := response 302 [date_header] (el "html" "" []).

  (** Main pages, as the markup variant of the login parser reads them. *)
Definition main_page (second : string) : Node :=
    el "html" ""
      [ Element "div" [("id", "sponge-header")]
          [ el "ul" "infoBox"
              [ el "li" "" [Text "LOGIN"]; el "li" "" [Text second] ] ] ].

Definition main_home : Response Tag := response 200 [date_header] (main_page "HOME").
Definition main_home_undated : Response Tag := response 200 [] (main_page "HOME").
Definition main_user : Response Tag := response 200 [date_header] (main_page "LOGOUT").

  (** Answers of the log-on endpoint, as the redirect variant reads them. *)
Definition alert_page : Node :=
    el "html" "" [el "div" "alert alert-warning" [Text " 아이디를 입력하세요. "]].

Definition logon_alert : Response Tag := response 200 [date_header] alert_page.
Definition logon_error7 : Response Tag :=
    response 302 [date_header; ("Location", "/Account/LogOn?ErrorCode=7")] (el "html" "" []).
Definition logon_ok : Response Tag :=
    response 302 [date_header; ("Location", "/")] (el "html" "" []).
Definition logon_ok_undated : Response Tag :=
    response 302 [("Location", "/")] (el "html" "" []).

  (** Detail pages and photos. *)
Definition detail_page (src : string) : Node :=
    el "html" ""
      [ Element "div" [("id", "detailtoprightnew")]
          [ el "div" "sponge-book-list-data" [Text "Coq'Art"];
            el "div" "sponge-book-list-data" [Text " 9783540208549 "] ];
        el "div" "page-detail-title-image"
          [ el "a" "" [Element "img" [("src", src)] []] ] ].

Definition detail_with_cover : Response Tag :=
    response 200 [date_header] (detail_page "https://image.example/1.jpg").
Definition detail_without_cover : Response Tag :=
    response 200 [date_header] (detail_page "/images/no-cover.gif").

Definition photo_jpeg : Response Tag :=
    response 200 [("Content-Type", "image/jpeg")] (Text "").
Definition photo_html : Response Tag :=
    response 200 [("Content-Type", "text/html")] (Text "").

(** A transport that answers with the request it was given. *)
Inductive Sent : Type :=
| Get (url : string) (cookies headers : option (list (string * string)))
      (timeout : option nat) (kwargs : list (string * pyobj))
| Post (url : string) (headers : option (list (string * string)))
       (body : list (string * string)) (timeout : option nat)
       (kwargs : list (string * pyobj)).

#[global] Instance recorder : HTTPClient nat Sent := {|
  connector_get := Get;
  connector_post := Post
|}.

(** The checks registered when both modules are loaded and nothing else. *)
Definition session_checks : list (Response Tag -> option pyobj) :=
  [lib._SessionExpiredChecker.is_blocking; library._SessionExpiredChecker.is_blocking].


Lemma session_checks_contract (check : Response Tag -> option pyobj)
    (response : Response Tag) (err : pyobj) :
  In check session_checks -> check response = Some err ->
  is_ErrorData err = true /\ link_of err = Some (url response).
Proof.
  intros [<- | [<- | []]];
    unfold lib._SessionExpiredChecker.is_blocking,
      library._SessionExpiredChecker.is_blocking;
    destruct (status response =? 302); intros [= <-]; split; reflexivity.
Qed.


#[global] Instance registry : IParserPrecondition Tag := {|
  registered := session_checks;
  registered_contract := session_checks_contract
|}.


(** The value a computation returned, the tag a query found. *)
Definition returned (m : E Tag pyobj) : pyobj :=
  match m with Ok v => v | Raise _ => PyNone end.

Definition found (x : option Tag) : Tag :=
  match x with Some t => t | None => document (Text "") end.

End Samples.

(** ** Vocabulary of the statements *)

Definition session_expired_title : string :=
  "세션이 만료되어 로그인페이지로 리다이렉트 되었습니다.".

(** The error with which [_SessionExpiredChecker] blocks a response. *)
Definition session_expired {Tag : Type} (r : Response Tag) : pyobj :=
  PyErrorData [("title", PyStr session_expired_title)] (url r).

Definition login_failed_title : string :=
  "로그인에 실패하였습니다. 정확한 정보를 입력하세요.".

(** The selectors of the header row and of the body rows of the checkout
    table. *)
Definition head_row : string := ".sponge-guide-Box-table thead tr".

Definition body_rows : string := ".sponge-guide-Box-table tbody tr".

Definition no_body_message : string := "테이블 바디가 존재하지 않습니다.".

Definition no_head_message : string := "테이블 헤드가 존재하지 않습니다.".

(** The selector of the info box of the main page. *)
Definition info_box : string := "#sponge-header .infoBox".

(** The character occurs in the string. *)
Fixpoint has_char (c : ascii) (s : string) : bool :=
  match s with
  | String a s' => Ascii.eqb a c || has_char c s'
  | EmptyString => false
  end.

(** [form[key]] on a form of string fields. *)
Fixpoint form_get (form : list (string * string)) (key : string) : option string :=
  match form with
  | [] => None
  | (k, v) :: form' => if String.eqb k key then Some v else form_get form' key
  end.

(** A character of Base64 text: one of the alphabet, or the padding. *)
Definition b64_symbol (c : ascii) : bool :=
  match index_of c b64_alphabet with
  | Some _ => true
  | None => Ascii.eqb c "="
  end.

Fixpoint all_b64_symbols (s : string) : bool :=
  match s with
  | String c s' => b64_symbol c && all_b64_symbols s'
  | EmptyString => true
  end.

(** The selector of the cover image of a detail page. *)
Definition cover_image : string := ".page-detail-title-image a img".

(** The stripped texts of the cells that [selector] finds below [t]. *)
Definition cell_texts {Tag : Type} `{DocumentQuery Tag} (t : Tag) (selector : string)
    : list string :=
  map (fun c => strip (text c)) (select t selector).

(** The raw column that ends up at index [i] once column 4 is deleted. *)
Definition raw_column (i : nat) : nat := if (i <? 4)%nat then i else S i.

(** Exactly one of the two result variants. *)
Definition one_variant (v : pyobj) : bool :=
  xorb (is_ResourceData v) (is_ErrorData v).

(** A result variant whose link is [u]. *)
Definition result_with_link (v : pyobj) (u : string) : Prop :=
  one_variant v = true /\ link_of v = Some u.

(** Head and body are index-aligned. *)
Definition aligned (head : list string) (body : list (list string)) : Prop :=
  Forall (fun row => length row = length head) body.

(** A computation that raises no [ParsingError]. *)
Definition no_fault {R A} (m : Exc R A) : Prop :=
  forall e, m = Raise e -> is_ParsingError e = false.

Create HintDb faults.

(** * Properties *)

(** ** The error monad and the list operations *)

Lemma bind_Ok {R A B} (m : Exc R A) (k : A -> Exc R B) (b : B) :
  (x <- m ;; k x) = Ok b -> exists a, m = Ok a /\ k a = Ok b.
Proof. destruct m as [a|e]; simpl; [eauto | discriminate]. Qed.

Lemma bind_Raise {R A B} (m : Exc R A) (k : A -> Exc R B) (e : exn R) :
  (x <- m ;; k x) = Raise e ->
  m = Raise e \/ exists a, m = Ok a /\ k a = Raise e.
Proof. destruct m as [a|e']; simpl; [eauto | intros [= ->]; auto]. Qed.

Lemma norm_index_nonneg (len n : nat) :
  (n < len)%nat -> norm_index len (Z.of_nat n) = Some n.
Proof.
  intros Hn. unfold norm_index.
  replace (Z.of_nat n <? 0) with false by (symmetry; apply Z.ltb_ge; lia).
  replace (0 <=? Z.of_nat n) with true by (symmetry; apply Z.leb_le; lia).
  replace (Z.of_nat n <? Z.of_nat len) with true by (symmetry; apply Z.ltb_lt; lia).
  simpl. now rewrite Nat2Z.id.
Qed.

Lemma norm_index_last (len : nat) :
  (0 < len)%nat -> norm_index len (-1) = Some (len - 1)%nat.
Proof.
  intros Hn. unfold norm_index. change (-1 <? 0) with true. cbv iota.
  replace (0 <=? -1 + Z.of_nat len) with true by (symmetry; apply Z.leb_le; lia).
  replace (-1 + Z.of_nat len <? Z.of_nat len) with true
    by (symmetry; apply Z.ltb_lt; lia).
  cbn [andb]. f_equal. lia.
Qed.

Lemma norm_index_Some (len : nat) (i : Z) (n : nat) :
  norm_index len i = Some n -> (n < len)%nat.
Proof.
  unfold norm_index.
  destruct (i <? 0) eqn:Hi; intros Hn;
    match type of Hn with (if ?c then _ else _) = _ => destruct c eqn:Hc end;
    try discriminate; injection Hn as <-;
    apply andb_true_iff in Hc as [H0 H1];
    apply Z.leb_le in H0; apply Z.ltb_lt in H1; lia.
Qed.

Section ListFacts.
Context {R A : Type}.
Implicit Types (l : list A) (x : A).

Lemma getitem_lookup l (n : nat) x :
    l !! n = Some x -> getitem (R := R) l (Z.of_nat n) = Ok x.
  Proof.
    intros Hx. unfold getitem. rewrite norm_index_nonneg.
    - now rewrite Hx.
    - eapply lookup_lt_Some, Hx.
  Qed.

Lemma getitem_short l (n : nat) :
    (length l <= n)%nat -> getitem (R := R) l (Z.of_nat n) = Raise IndexError.
  Proof.
    intros Hn. unfold getitem.
    destruct (norm_index (length l) (Z.of_nat n)) as [m|] eqn:Hm; [|reflexivity].
    apply norm_index_Some in Hm as Hlt.
    destruct (l !! m) eqn:Hl; [|reflexivity].
    unfold norm_index in Hm.
    replace (Z.of_nat n <? 0) with false in Hm by (symmetry; apply Z.ltb_ge; lia).
    replace (Z.of_nat n <? Z.of_nat (length l)) with false in Hm
      by (symmetry; apply Z.ltb_ge; lia).
    rewrite andb_false_r in Hm. discriminate.
  Qed.

Lemma getitem_Ok l (i : Z) x :
    getitem (R := R) l i = Ok x -> exists n, l !! n = Some x.
  Proof.
    unfold getitem. destruct (norm_index (length l) i) as [n|]; [|discriminate].
    destruct (l !! n) eqn:Hl; [|discriminate]. intros [= ->]. eauto.
  Qed.

Lemma delitem_nonneg l (n : nat) :
    (n < length l)%nat -> delitem (R := R) l (Z.of_nat n) = Ok (delete n l).
  Proof.
    intros Hn. unfold delitem. now rewrite norm_index_nonneg.
  Qed.

Lemma setitem_nonneg l (n : nat) x :
    (n < length l)%nat -> setitem (R := R) l (Z.of_nat n) x = Ok (<[n:=x]> l).
  Proof.
    intros Hn. unfold setitem. now rewrite norm_index_nonneg.
  Qed.

Lemma setitem_last l x :
    (0 < length l)%nat ->
    setitem (R := R) l (-1) x = Ok (<[(length l - 1)%nat:=x]> l).
  Proof. intros Hn. unfold setitem. now rewrite norm_index_last. Qed.

Lemma setitem_length l (i : Z) x l' :
    setitem (R := R) l i x = Ok l' -> length l' = length l.
  Proof.
    unfold setitem. destruct (norm_index (length l) i); [|discriminate].
    intros [= <-]. apply length_insert.
  Qed.

Lemma delitem_length l (i : Z) l' :
    delitem (R := R) l i = Ok l' -> S (length l') = length l.
  Proof.
    unfold delitem. destruct (norm_index (length l) i) as [n|] eqn:Hn; [|discriminate].
    intros [= <-]. apply norm_index_Some in Hn.
    rewrite length_delete by now apply lookup_lt_is_Some_2.
    lia.
  Qed.

Lemma last_insert_last l x :
    (0 < length l)%nat -> last (<[(length l - 1)%nat:=x]> l) = Some x.
  Proof.
    intros Hn. rewrite last_lookup, length_insert.
    replace (Nat.pred (length l)) with (length l - 1)%nat by lia.
    apply list_lookup_insert_eq. lia.
  Qed.
End ListFacts.

(** ** Strings *)

Lemma slice_to_substring (n : nat) (s : string) : slice_to n s = substring 0 n s.
Proof.
  revert s. induction n as [|n IH]; intros [|c s]; simpl; try reflexivity.
  now rewrite IH.
Qed.

(** [s[:5] == "image"] says that [s] begins with ["image"]. *)
Lemma slice_to_image (s : string) :
  String.eqb (slice_to 5 s) "image" = String.prefix "image" s.
Proof.
  apply eq_true_iff_eq. rewrite String.eqb_eq, slice_to_substring.
  symmetry. apply (prefix_correct "image" s).
Qed.

(** ** Photos: [library.BookPhoto.parse] *)

Section BookPhotoFacts.
Context {Tag : Type}.
Implicit Types (r : Response Tag).

Lemma BookPhoto_parse_image r ct :
    headers_get (headers r) "content-type" = Some ct ->
    String.prefix "image" ct = true ->
    library.BookPhoto.parse r
    = Ok (PyResourceData [("raw_image", PyBytes (raw r))] (url r)).
  Proof.
    intros Hct Himg. unfold library.BookPhoto.parse, headers_getitem.
    rewrite Hct. cbn [bind]. now rewrite slice_to_image, Himg.
  Qed.

Lemma BookPhoto_parse_other r ct :
    headers_get (headers r) "content-type" = Some ct ->
    String.prefix "image" ct = false ->
    library.BookPhoto.parse r = Ok PyNone.
  Proof.
    intros Hct Himg. unfold library.BookPhoto.parse, headers_getitem.
    rewrite Hct. cbn [bind]. now rewrite slice_to_image, Himg.
  Qed.
End BookPhotoFacts.

(** C1.  [library.BookPhoto.parse] classifies by the [content-type] header.
    When the header begins with ["image"] the result is the [ResourceData]
    whose [raw_image] is the body of the response.  When it does not, the
    function has no branch left and returns [None]: no [ErrorData] is
    produced, unlike in the sibling [lib.BookPhoto.parse], whose [else]
    branch returns the "could not load image" error. *)
Theorem BookPhoto_parse_by_content_type {Tag : Type} (r : Response Tag) (ct : string) :
  headers_get (headers r) "content-type" = Some ct ->
  library.BookPhoto.parse r
  = if String.prefix "image" ct
    then Ok (PyResourceData [("raw_image", PyBytes (raw r))] (url r))
    else Ok PyNone.
Proof.
  intros Hct. destruct (String.prefix "image" ct) eqn:Himg.
  - now apply BookPhoto_parse_image with ct.
  - now apply BookPhoto_parse_other with ct.
Qed.

Lemma BookPhoto_parse_by_content_type_witness :
  library.BookPhoto.parse Samples.photo_html = Ok PyNone
  /\ is_ErrorData PyNone = false
  /\ library.BookPhoto.parse Samples.photo_jpeg
     = Ok (PyResourceData [("raw_image", PyBytes [x89; x50; x4e; x47])]
             "https://lib.bible.ac.kr/MyLibrary").
Proof.
  split; [|split].
  - apply (BookPhoto_parse_by_content_type Samples.photo_html "text/html").
    reflexivity.
  - reflexivity.
  - apply (BookPhoto_parse_by_content_type Samples.photo_jpeg "image/jpeg").
    reflexivity.
Defined.

(** ** The precondition gate *)

Section GateFacts.
Context {Tag : Type}.
Implicit Types (r : Response Tag) (func : Response Tag -> E Tag pyobj)
  (checks : list (Response Tag -> option pyobj)) (err : pyobj).

Lemma gate_blocked checks func r err :
  first_blocking checks r = Some err ->
  ParserPrecondition checks func r = {| outcome := Ok err; wrapped_calls := 0 |}.
Proof. unfold ParserPrecondition. now intros ->. Qed.

Lemma gate_passed checks func r :
  first_blocking checks r = None ->
  ParserPrecondition checks func r = {| outcome := func r; wrapped_calls := 1 |}.
Proof. unfold ParserPrecondition. now intros ->. Qed.

Lemma first_blocking_Some checks r err :
  first_blocking checks r = Some err ->
  exists check, In check checks /\ check r = Some err.
Proof.
  induction checks as [|c checks IH]; [discriminate|]. cbn [first_blocking].
  destruct (c r) as [e|] eqn:Hc.
  - intros [= <-]. exists c. split; [now left | exact Hc].
  - intros Hb. destruct (IH Hb) as (check & Hin & Hcheck).
    exists check. split; [now right | exact Hcheck].
Qed.




End GateFacts.

Section GatedParsers.
Context {Tag : Type} `{DocumentQuery Tag} `{IParserPrecondition Tag}.
Implicit Types (r : Response Tag) (err : pyobj).

Lemma blocked_is_ErrorData r err :
  first_blocking registered r = Some err ->
  is_ErrorData err = true /\ link_of err = Some (url r).
Proof.
  intros Hb. apply first_blocking_Some in Hb as (check & Hin & Hcheck).
  now apply registered_contract with check.
Qed.

Lemma lib_parse_blocked r err :
  first_blocking registered r = Some err ->
  lib.Library.parse r = {| outcome := Ok err; wrapped_calls := 0 |}.
Proof. apply gate_blocked. Qed.

Lemma lib_parse_passed r :
  first_blocking registered r = None ->
  lib.Library.parse r
  = {| outcome := lib.Library.parse_undecorated r; wrapped_calls := 1 |}.
Proof. apply gate_passed. Qed.

Lemma library_parse_blocked r err :
  first_blocking registered r = Some err ->
  library.CheckoutList.parse r = {| outcome := Ok err; wrapped_calls := 0 |}.
Proof. apply gate_blocked. Qed.

Lemma library_parse_passed r :
  first_blocking registered r = None ->
  library.CheckoutList.parse r
  = {| outcome := library.CheckoutList.parse_undecorated r; wrapped_calls := 1 |}.
Proof. apply gate_passed. Qed.
End GatedParsers.




(** ** Loops and faults *)

Lemma for_each_Ok {R A B} (f : A -> Exc R B) (l : list A) (ys : list B) :
  for_each f l = Ok ys -> Forall2 (fun x y => f x = Ok y) l ys.
Proof.
  revert ys. induction l as [|x l IH]; simpl; intros ys Hys.
  - injection Hys as <-. constructor.
  - apply bind_Ok in Hys as (y & Hy & Hys).
    apply bind_Ok in Hys as (ys' & Hys' & Hys).
    injection Hys as <-. constructor; auto.
Qed.

Lemma for_each_Raise {R A B} (f : A -> Exc R B) (l : list A) (e : exn R) :
  for_each f l = Raise e -> exists x, In x l /\ f x = Raise e.
Proof.
  induction l as [|x l IH]; simpl; intros He; [discriminate|].
  apply bind_Raise in He as [He | (y & Hy & He)].
  - exists x. auto.
  - apply bind_Raise in He as [He | (ys & Hys & He)]; [|discriminate].
    destruct (IH He) as (x' & Hin & Hx'). exists x'. auto.
Qed.

Lemma no_fault_Ok {R A} (a : A) : no_fault (R := R) (Ok a).
Proof. intros e He. discriminate. Qed.

Lemma no_fault_bind {R A B} (m : Exc R A) (k : A -> Exc R B) :
  no_fault m -> (forall a, no_fault (k a)) -> no_fault (x <- m ;; k x).
Proof.
  intros Hm Hk e He. apply bind_Raise in He as [He | (a & _ & He)].
  - now apply Hm.
  - now apply (Hk a).
Qed.

Lemma no_fault_getitem {R A} (l : list A) (i : Z) : no_fault (getitem (R := R) l i).
Proof.
  intros e. unfold getitem.
  destruct (norm_index (length l) i) as [n|]; [destruct (l !! n)|];
    intros [= <-]; reflexivity.
Qed.

Lemma no_fault_setitem {R A} (l : list A) (i : Z) (x : A) :
  no_fault (setitem (R := R) l i x).
Proof.
  intros e. unfold setitem.
  destruct (norm_index (length l) i); intros [= <-]; reflexivity.
Qed.

Lemma no_fault_delitem {R A} (l : list A) (i : Z) : no_fault (delitem (R := R) l i).
Proof.
  intros e. unfold delitem.
  destruct (norm_index (length l) i); intros [= <-]; reflexivity.
Qed.

Section QueryFaults.
Context {Tag : Type} `{DocumentQuery Tag}.

Lemma no_fault_text_of (x : option Tag) : no_fault (text_of x).
Proof. intros e. destruct x; intros [= <-]; reflexivity. Qed.

Lemma no_fault_tag_getitem (t : Tag) (key : string) : no_fault (tag_getitem t key).
Proof.
  intros e. unfold tag_getitem. destruct (attr t key); intros [= <-]; reflexivity.
Qed.
End QueryFaults.

#[local] Hint Resolve no_fault_Ok no_fault_getitem no_fault_setitem no_fault_delitem
  no_fault_text_of no_fault_tag_getitem : faults.

Ltac no_fault_steps :=
  repeat (apply no_fault_bind; [solve [auto with faults] | intros ?]);
  auto with faults.

Ltac bind_inv H :=
  repeat
    (let a := fresh "a" in
     let Ha := fresh "Ha" in
     apply bind_Ok in H as (a & Ha & H)).

(** ** The checkout table: [lib.Library] *)

Section LibTable.
Context {Tag : Type} `{DocumentQuery Tag} `{IParserPrecondition Tag}.
Implicit Types (r : Response Tag) (tr : Tag).

Lemma lib_parse_subject_inv r head :
  lib.Library.parse_subject r = Ok head ->
  exists thead,
    select_one (soup r) head_row = Some thead
    /\ S (length head) = length (select thead "th")
    /\ last head = Some "도서URL".
Proof.
  unfold lib.Library.parse_subject, head_row.
  destruct (select_one (soup r) _) as [thead|]; [|discriminate].
  intros Hh. exists thead. split; [reflexivity|].
  apply bind_Ok in Hh as (l1 & H1 & Hh).
  apply bind_Ok in Hh as (l2 & H2 & Hh). injection Hh as <-.
  apply delitem_length in H1 as Hlen1. rewrite length_map in Hlen1.
  assert (Hpos : (0 < length l1)%nat).
  { unfold setitem in H2.
    destruct (norm_index (length l1) (-1)) as [n|] eqn:Hn; [|discriminate].
    apply norm_index_Some in Hn. lia. }
  rewrite setitem_last in H2 by exact Hpos. injection H2 as <-.
  split; [rewrite length_insert; exact Hlen1 | now apply last_insert_last].
Qed.

Lemma lib_parse_subject_Ok r thead :
  select_one (soup r) head_row = Some thead ->
  (5 <= length (select thead "th"))%nat ->
  exists head, lib.Library.parse_subject r = Ok head.
Proof.
  unfold lib.Library.parse_subject, head_row. intros -> Hn.
  set (l := map _ _).
  assert (Hl : length l = length (select thead "th")) by apply length_map.
  change 4 with (Z.of_nat 4). rewrite delitem_nonneg by lia. cbn [bind].
  assert (Hd : S (length (delete 4%nat l)) = length l).
  { rewrite length_delete by (apply lookup_lt_is_Some_2; lia). lia. }
  rewrite setitem_last by lia. cbn [bind]. eauto.
Qed.

Lemma lib_parse_subject_Raise r e :
  lib.Library.parse_subject r = Raise e ->
  is_ParsingError e = true ->
  select_one (soup r) head_row = None.
Proof.
  unfold lib.Library.parse_subject, head_row.
  destruct (select_one (soup r) _) as [thead|]; [|reflexivity].
  intros He Hpe. exfalso. revert e He Hpe.
  assert (Hnf : no_fault
            (head <- delitem (R := Response Tag)
                       (map (fun th => strip (text th)) (select thead "th")) 4 ;;
             head <- setitem head (-1) "도서URL" ;; Ok head))
    by no_fault_steps.
  intros e He Hpe. apply Hnf in He. congruence.
Qed.

Lemma lib_parse_row_length tr row :
  lib.Library.parse_row tr = Ok row -> length row = 8%nat.
Proof.
  unfold lib.Library.parse_row. intros Hr. bind_inv Hr. now injection Hr as <-.
Qed.

Lemma lib_parse_row_no_fault tr : no_fault (lib.Library.parse_row tr).
Proof. unfold lib.Library.parse_row. no_fault_steps. Qed.

Lemma lib_parse_main_table_inv r body :
  lib.Library.parse_main_table r = Ok body ->
  select (soup r) body_rows <> []
  /\ Forall2 (fun tr row => lib.Library.parse_row tr = Ok row)
       (select (soup r) body_rows) body.
Proof.
  unfold lib.Library.parse_main_table, body_rows.
  destruct (select (soup r) _) as [|tr trs] eqn:Hsel; [discriminate|].
  intros Hb. split; [discriminate|]. now apply for_each_Ok.
Qed.

Lemma lib_parse_main_table_empty r :
  select (soup r) body_rows = [] ->
  lib.Library.parse_main_table r
  = Raise (ParsingError "테이블 바디가 존재하지 않습니다." r).
Proof. unfold lib.Library.parse_main_table, body_rows. now intros ->. Qed.

Lemma lib_parse_main_table_Raise r e :
  lib.Library.parse_main_table r = Raise e ->
  is_ParsingError e = true ->
  select (soup r) body_rows = [].
Proof.
  unfold lib.Library.parse_main_table, body_rows.
  destruct (select (soup r) _) as [|tr trs]; [reflexivity|].
  intros He Hpe. apply for_each_Raise in He as (x & _ & Hx).
  apply lib_parse_row_no_fault in Hx. congruence.
Qed.

Lemma lib_parse_undecorated_inv r v :
  lib.Library.parse_undecorated r = Ok v ->
  exists head body,
    lib.Library.parse_subject r = Ok head
    /\ lib.Library.parse_main_table r = Ok body
    /\ v = PyResourceData [("head", str_list head); ("body", str_table body)] (url r).
Proof.
  unfold lib.Library.parse_undecorated. intros Hv.
  apply bind_Ok in Hv as (head & Hh & Hv).
  apply bind_Ok in Hv as (body & Hb & Hv). injection Hv as <-. eauto.
Qed.

Lemma lib_parse_outcome r :
  outcome (lib.Library.parse r)
  = match first_blocking registered r with
    | Some err => Ok err
    | None => lib.Library.parse_undecorated r
    end.
Proof.
  destruct (first_blocking registered r) as [err|] eqn:Hb.
  - now rewrite (lib_parse_blocked r err Hb).
  - now rewrite (lib_parse_passed r Hb).
Qed.
End LibTable.

(** ** The checkout table: [library.CheckoutList] *)

Section LibraryTable.
Context {Tag : Type} `{DocumentQuery Tag} `{IParserPrecondition Tag}.
Implicit Types (r : Response Tag) (tr : Tag).

Lemma library_parse_subject_inv r head :
  library.CheckoutList.parse_subject r = Ok head ->
  exists thead,
    select_one (soup r) head_row = Some thead
    /\ S (length head) = length (select thead "th")
    /\ last head = Some "도서이미지".
Proof.
  unfold library.CheckoutList.parse_subject, head_row.
  destruct (select_one (soup r) _) as [thead|]; [|discriminate].
  intros Hh. exists thead. split; [reflexivity|].
  apply bind_Ok in Hh as (l1 & H1 & Hh).
  apply bind_Ok in Hh as (l2 & H2 & Hh).
  apply bind_Ok in Hh as (l3 & H3 & Hh). injection Hh as <-.
  apply delitem_length in H1 as Hlen1. rewrite length_map in Hlen1.
  apply setitem_length in H2 as Hlen2.
  assert (Hpos : (0 < length l2)%nat).
  { unfold setitem in H3.
    destruct (norm_index (length l2) (-1)) as [n|] eqn:Hn; [|discriminate].
    apply norm_index_Some in Hn. lia. }
  rewrite setitem_last in H3 by exact Hpos. injection H3 as <-.
  split; [rewrite length_insert; lia | now apply last_insert_last].
Qed.

Lemma library_parse_subject_Ok r thead :
  select_one (soup r) head_row = Some thead ->
  (5 <= length (select thead "th"))%nat ->
  exists head, library.CheckoutList.parse_subject r = Ok head.
Proof.
  unfold library.CheckoutList.parse_subject, head_row. intros -> Hn.
  set (l := map _ _).
  assert (Hl : length l = length (select thead "th")) by apply length_map.
  change 4 with (Z.of_nat 4). rewrite delitem_nonneg by lia. cbn [bind].
  assert (Hd : S (length (delete 4%nat l)) = length l).
  { rewrite length_delete by (apply lookup_lt_is_Some_2; lia). lia. }
  change 0 with (Z.of_nat 0). rewrite setitem_nonneg by lia. cbn [bind].
  rewrite setitem_last by (rewrite length_insert; lia). cbn [bind]. eauto.
Qed.

Lemma library_parse_subject_Raise r e :
  library.CheckoutList.parse_subject r = Raise e ->
  is_ParsingError e = true ->
  select_one (soup r) head_row = None.
Proof.
  unfold library.CheckoutList.parse_subject, head_row.
  destruct (select_one (soup r) _) as [thead|]; [|reflexivity].
  intros He Hpe. exfalso. revert e He Hpe.
  assert (Hnf : no_fault
            (head <- delitem (R := Response Tag)
                       (map (fun th => strip (text th)) (select thead "th")) 4 ;;
             head <- setitem head 0 "ISBN" ;;
             head <- setitem head (-1) "도서이미지" ;; Ok head))
    by no_fault_steps.
  intros e He Hpe. apply Hnf in He. congruence.
Qed.

Lemma library_parse_row_length tr row :
  library.CheckoutList.parse_row tr = Ok row ->
  S (length row) = length (select tr "td").
Proof.
  unfold library.CheckoutList.parse_row. intros Hr.
  apply bind_Ok in Hr as (title & _ & Hr).
  apply bind_Ok in Hr as (l1 & H1 & Hr).
  apply bind_Ok in Hr as (a & _ & Hr).
  apply bind_Ok in Hr as (href & _ & Hr).
  apply bind_Ok in Hr as (l2 & H2 & Hr).
  apply bind_Ok in Hr as (l3 & H3 & Hr). injection Hr as <-.
  apply setitem_length in H1. apply setitem_length in H2.
  apply delitem_length in H3. rewrite length_map in H1. lia.
Qed.

Lemma library_parse_row_no_fault tr : no_fault (library.CheckoutList.parse_row tr).
Proof. unfold library.CheckoutList.parse_row. no_fault_steps. Qed.

Lemma library_parse_main_table_inv r body :
  library.CheckoutList.parse_main_table r = Ok body ->
  select (soup r) body_rows <> []
  /\ Forall2 (fun tr row => library.CheckoutList.parse_row tr = Ok row)
       (select (soup r) body_rows) body.
Proof.
  unfold library.CheckoutList.parse_main_table, body_rows.
  destruct (select (soup r) _) as [|tr trs] eqn:Hsel; [discriminate|].
  intros Hb. split; [discriminate|]. now apply for_each_Ok.
Qed.

Lemma library_parse_main_table_empty r :
  select (soup r) body_rows = [] ->
  library.CheckoutList.parse_main_table r
  = Raise (ParsingError "테이블 바디가 존재하지 않습니다." r).
Proof. unfold library.CheckoutList.parse_main_table, body_rows. now intros ->. Qed.

Lemma library_parse_main_table_Raise r e :
  library.CheckoutList.parse_main_table r = Raise e ->
  is_ParsingError e = true ->
  select (soup r) body_rows = [].
Proof.
  unfold library.CheckoutList.parse_main_table, body_rows.
  destruct (select (soup r) _) as [|tr trs]; [reflexivity|].
  intros He Hpe. apply for_each_Raise in He as (x & _ & Hx).
  apply library_parse_row_no_fault in Hx. congruence.
Qed.

Lemma library_parse_undecorated_inv r v :
  library.CheckoutList.parse_undecorated r = Ok v ->
  exists head body,
    library.CheckoutList.parse_subject r = Ok head
    /\ library.CheckoutList.parse_main_table r = Ok body
    /\ v = PyResourceData [("head", str_list head); ("body", str_table body)] (url r).
Proof.
  unfold library.CheckoutList.parse_undecorated. intros Hv.
  apply bind_Ok in Hv as (head & Hh & Hv).
  apply bind_Ok in Hv as (body & Hb & Hv). injection Hv as <-. eauto.
Qed.

Lemma library_parse_outcome r :
  outcome (library.CheckoutList.parse r)
  = match first_blocking registered r with
    | Some err => Ok err
    | None => library.CheckoutList.parse_undecorated r
    end.
Proof.
  destruct (first_blocking registered r) as [err|] eqn:Hb.
  - now rewrite (library_parse_blocked r err Hb).
  - now rewrite (library_parse_passed r Hb).
Qed.
End LibraryTable.

(** ** Claims about the checkout table *)

(** C9.  On a header row of N raw columns, N at least 5 so that the edits
    apply, [parse_subject] deletes the column of index 4 and renames the last
    one: the head has exactly N-1 entries and its last entry is ["도서URL"]
    for [Library] and ["도서이미지"] for [CheckoutList]. *)
Theorem parse_subject_head {Tag : Type} `{DocumentQuery Tag}
    (r : Response Tag) (thead : Tag) :
  select_one (soup r) head_row = Some thead ->
  (5 <= length (select thead "th"))%nat ->
  (exists head,
     lib.Library.parse_subject r = Ok head
     /\ length head = (length (select thead "th") - 1)%nat
     /\ last head = Some "도서URL")
  /\
  (exists head,
     library.CheckoutList.parse_subject r = Ok head
     /\ length head = (length (select thead "th") - 1)%nat
     /\ last head = Some "도서이미지").
Proof.
  intros Hsel Hn. split.
  - destruct (lib_parse_subject_Ok r thead Hsel Hn) as [head Hh].
    exists head. split; [exact Hh|].
    apply lib_parse_subject_inv in Hh as (thead' & Hsel' & Hlen & Hlast).
    rewrite Hsel in Hsel'. injection Hsel' as <-. split; [lia | exact Hlast].
  - destruct (library_parse_subject_Ok r thead Hsel Hn) as [head Hh].
    exists head. split; [exact Hh|].
    apply library_parse_subject_inv in Hh as (thead' & Hsel' & Hlen & Hlast).
    rewrite Hsel in Hsel'. injection Hsel' as <-. split; [lia | exact Hlast].
Qed.

Lemma parse_subject_head_witness :
  let thead := Samples.found (select_one (soup Samples.checkout_page9) head_row) in
  (exists head,
     lib.Library.parse_subject Samples.checkout_page9 = Ok head
     /\ length head = (length (select thead "th") - 1)%nat
     /\ last head = Some "도서URL")
  /\
  (exists head,
     library.CheckoutList.parse_subject Samples.checkout_page9 = Ok head
     /\ length head = (length (select thead "th") - 1)%nat
     /\ last head = Some "도서이미지").
Proof.
  intros thead.
  apply (parse_subject_head Samples.checkout_page9 thead).
  - reflexivity.
  - vm_compute. lia.
Defined.

(** C5, as the code has it.  When [parse] returns a [ResourceData], its head
    has one entry fewer than the header row has [th] cells.  Every row of
    [Library] has exactly 8 entries, so head and body are aligned when the
    header row has 9 cells; every row of [CheckoutList] has one entry fewer
    than its [tr] has [td] cells, so head and body are aligned when every
    body row has as many [td] cells as the header row has [th] cells. *)
Theorem table_alignment {Tag : Type} `{DocumentQuery Tag} `{IParserPrecondition Tag}
    (r : Response Tag) (data : list (string * pyobj)) (l : string) :
  (outcome (lib.Library.parse r) = Ok (PyResourceData data l) ->
   exists thead head body,
     select_one (soup r) head_row = Some thead
     /\ data = [("head", str_list head); ("body", str_table body)]
     /\ S (length head) = length (select thead "th")
     /\ Forall (fun row => length row = 8%nat) body
     /\ (length (select thead "th") = 9%nat -> aligned head body))
  /\
  (outcome (library.CheckoutList.parse r) = Ok (PyResourceData data l) ->
   exists thead head body,
     select_one (soup r) head_row = Some thead
     /\ data = [("head", str_list head); ("body", str_table body)]
     /\ S (length head) = length (select thead "th")
     /\ Forall2 (fun tr row => S (length row) = length (select tr "td"))
          (select (soup r) body_rows) body
     /\ (Forall (fun tr => length (select tr "td") = length (select thead "th"))
           (select (soup r) body_rows) ->
         aligned head body)).
Proof.
  split; intros Hv.
  - rewrite lib_parse_outcome in Hv.
    destruct (first_blocking registered r) as [err|] eqn:Hgate.
    { apply blocked_is_ErrorData in Hgate as [Herr _]. now injection Hv as ->. }
    apply lib_parse_undecorated_inv in Hv as (head & body & Hh & Hb & Hv).
    injection Hv as -> ->.
    apply lib_parse_subject_inv in Hh as (thead & Hsel & Hlen & _).
    apply lib_parse_main_table_inv in Hb as [_ Hrows].
    assert (H8 : Forall (fun row => length row = 8%nat) body).
    { induction Hrows as [|tr row trs rows Hrow _ IH]; constructor; auto.
      now apply lib_parse_row_length with tr. }
    exists thead, head, body. repeat split; auto.
    intros H9. unfold aligned. eapply Forall_impl; [exact H8|].
    intros row Hrow. simpl in Hrow. lia.
  - rewrite library_parse_outcome in Hv.
    destruct (first_blocking registered r) as [err|] eqn:Hgate.
    { apply blocked_is_ErrorData in Hgate as [Herr _]. now injection Hv as ->. }
    apply library_parse_undecorated_inv in Hv as (head & body & Hh & Hb & Hv).
    injection Hv as -> ->.
    apply library_parse_subject_inv in Hh as (thead & Hsel & Hlen & _).
    apply library_parse_main_table_inv in Hb as [_ Hrows].
    assert (Htd : Forall2 (fun tr row => S (length row) = length (select tr "td"))
                    (select (soup r) body_rows) body).
    { induction Hrows as [|tr row trs rows Hrow _ IH]; constructor; auto.
      now apply library_parse_row_length. }
    exists thead, head, body. repeat split; auto.
    intros Hcells. unfold aligned. clear Hrows.
    induction Htd as [|tr row trs rows Hrow _ IH]; constructor.
    + apply Forall_inv in Hcells. lia.
    + apply IH. now apply Forall_inv_tail in Hcells.
Qed.

Lemma table_alignment_witness :
  (exists head body,
     data_of (Samples.returned (outcome (lib.Library.parse Samples.checkout_page9)))
     = [("head", str_list head); ("body", str_table body)]
     /\ aligned head body)
  /\
  (exists head body,
     data_of (Samples.returned
                (outcome (library.CheckoutList.parse Samples.checkout_page8)))
     = [("head", str_list head); ("body", str_table body)]
     /\ aligned head body).
Proof.
  split.
  - assert (Hrun : outcome (lib.Library.parse Samples.checkout_page9)
                   = Ok (PyResourceData
                           (data_of (Samples.returned
                                       (outcome (lib.Library.parse
                                                   Samples.checkout_page9))))
                           "https://lib.bible.ac.kr/MyLibrary"))
      by (vm_compute; reflexivity).
    destruct (proj1 (table_alignment _ _ _) Hrun)
      as (thead & head & body & Hsel & Hd & _ & _ & Ha).
    exists head, body. split; [exact Hd|]. apply Ha.
    vm_compute in Hsel. injection Hsel as <-. reflexivity.
  - assert (Hrun : outcome (library.CheckoutList.parse Samples.checkout_page8)
                   = Ok (PyResourceData
                           (data_of (Samples.returned
                                       (outcome (library.CheckoutList.parse
                                                   Samples.checkout_page8))))
                           "https://lib.bible.ac.kr/MyLibrary"))
      by (vm_compute; reflexivity).
    destruct (proj2 (table_alignment _ _ _) Hrun)
      as (thead & head & body & Hsel & Hd & _ & _ & Ha).
    exists head, body. split; [exact Hd|]. apply Ha.
    vm_compute in Hsel. injection Hsel as <-.
    vm_compute. repeat constructor.
Defined.

Lemma misaligned_table :
  (exists head body l,
     outcome (lib.Library.parse Samples.checkout_page5)
     = Ok (PyResourceData [("head", str_list head); ("body", str_table body)] l)
     /\ ~ aligned head body)
  /\
  (exists head body l,
     outcome (library.CheckoutList.parse Samples.checkout_page5)
     = Ok (PyResourceData [("head", str_list head); ("body", str_table body)] l)
     /\ ~ aligned head body).
Proof.
  split.
  - exists ["번호"; "서지정보"; "대출일자"; "도서URL"],
      [ ["1"; "Coq'Art"; "2023-01-01"; "2023-01-15"; "대출중"; "0"; "1";
         "/Search/Detail/1"];
        ["2"; "SICP"; "2023-01-02"; "2023-01-16"; "대출중"; "0"; "1";
         "/Search/Detail/2"] ],
      "https://lib.bible.ac.kr/MyLibrary".
    split; [reflexivity|].
    intros Ha. apply Forall_inv in Ha. discriminate Ha.
  - exists ["ISBN"; "서지정보"; "대출일자"; "도서이미지"],
      [ ["1"; "Coq'Art"; "2023-01-01"; "2023-01-15"; "대출중"; "0";
         "/Search/Detail/1"];
        ["2"; "SICP"; "2023-01-02"; "2023-01-16"; "대출중"; "0";
         "/Search/Detail/2"] ],
      "https://lib.bible.ac.kr/MyLibrary".
    split; [reflexivity|].
    intros Ha. apply Forall_inv in Ha. discriminate Ha.
Qed.

(** C3, as the code has it.  [Library.parse] and [CheckoutList.parse] raise a
    [ParsingError] only when the header-row selector finds no element or the
    body-row selector finds no row.  A table that is found but has no body
    row is in the second case: [parse] never returns a [ResourceData] for it,
    and when no precondition check blocks the response and the head has been
    extracted, it raises the [ParsingError] of the missing table body. *)
Theorem table_faults {Tag : Type} `{DocumentQuery Tag} `{IParserPrecondition Tag}
    (r : Response Tag) :
  ((forall e, outcome (lib.Library.parse r) = Raise e -> is_ParsingError e = true ->
      select_one (soup r) head_row = None \/ select (soup r) body_rows = [])
   /\ (select (soup r) body_rows = [] ->
       (forall v, outcome (lib.Library.parse r) = Ok v -> is_ResourceData v = false)
       /\ (first_blocking registered r = None ->
           returns (lib.Library.parse_subject r) ->
           outcome (lib.Library.parse r) = Raise (ParsingError no_body_message r))))
  /\
  ((forall e, outcome (library.CheckoutList.parse r) = Raise e ->
      is_ParsingError e = true ->
      select_one (soup r) head_row = None \/ select (soup r) body_rows = [])
   /\ (select (soup r) body_rows = [] ->
       (forall v, outcome (library.CheckoutList.parse r) = Ok v ->
          is_ResourceData v = false)
       /\ (first_blocking registered r = None ->
           returns (library.CheckoutList.parse_subject r) ->
           outcome (library.CheckoutList.parse r)
           = Raise (ParsingError no_body_message r)))).
Proof.
  split; (split; [intros e He Hpe | intros Hrows; split; [intros v Hv | intros Hs [head Hh]]]).
  - rewrite lib_parse_outcome in He.
    destruct (first_blocking registered r); [discriminate|].
    unfold lib.Library.parse_undecorated in He.
    apply bind_Raise in He as [He | (head & _ & He)].
    + left. now apply lib_parse_subject_Raise with e.
    + apply bind_Raise in He as [He | (body & _ & He)]; [|discriminate].
      right. now apply lib_parse_main_table_Raise with e.
  - rewrite lib_parse_outcome in Hv.
    destruct (first_blocking registered r) as [err|] eqn:Hgate.
    + apply blocked_is_ErrorData in Hgate as [Herr _]. injection Hv as <-.
      now destruct err.
    + apply lib_parse_undecorated_inv in Hv as (head & body & _ & Hb & _).
      rewrite lib_parse_main_table_empty in Hb by exact Hrows. discriminate.
  - rewrite lib_parse_outcome, Hs.
    unfold lib.Library.parse_undecorated. rewrite Hh. cbn [bind].
    now rewrite lib_parse_main_table_empty.
  - rewrite library_parse_outcome in He.
    destruct (first_blocking registered r); [discriminate|].
    unfold library.CheckoutList.parse_undecorated in He.
    apply bind_Raise in He as [He | (head & _ & He)].
    + left. now apply library_parse_subject_Raise with e.
    + apply bind_Raise in He as [He | (body & _ & He)]; [|discriminate].
      right. now apply library_parse_main_table_Raise with e.
  - rewrite library_parse_outcome in Hv.
    destruct (first_blocking registered r) as [err|] eqn:Hgate.
    + apply blocked_is_ErrorData in Hgate as [Herr _]. injection Hv as <-.
      now destruct err.
    + apply library_parse_undecorated_inv in Hv as (head & body & _ & Hb & _).
      rewrite library_parse_main_table_empty in Hb by exact Hrows. discriminate.
  - rewrite library_parse_outcome, Hs.
    unfold library.CheckoutList.parse_undecorated. rewrite Hh. cbn [bind].
    now rewrite library_parse_main_table_empty.
Qed.

Lemma table_faults_witness :
  outcome (lib.Library.parse Samples.checkout_empty)
  = Raise (ParsingError no_body_message Samples.checkout_empty)
  /\ outcome (library.CheckoutList.parse Samples.checkout_empty)
     = Raise (ParsingError no_body_message Samples.checkout_empty)
  /\ (select_one (soup Samples.checkout_empty) head_row = None
      \/ select (soup Samples.checkout_empty) body_rows = []).
Proof.
  assert (Hrows : select (soup Samples.checkout_empty) body_rows = [])
    by (vm_compute; reflexivity).
  assert (Hs : first_blocking registered Samples.checkout_empty = None)
    by (vm_compute; reflexivity).
  destruct (table_faults Samples.checkout_empty) as [[Hlib1 Hlib2] [_ Hlibrary2]].
  assert (Hlib : outcome (lib.Library.parse Samples.checkout_empty)
                 = Raise (ParsingError no_body_message Samples.checkout_empty)).
  { apply (proj2 (Hlib2 Hrows) Hs). eexists. vm_compute. reflexivity. }
  split; [exact Hlib|]. split.
  - apply (proj2 (Hlibrary2 Hrows) Hs). eexists. vm_compute. reflexivity.
  - apply (Hlib1 _ Hlib). reflexivity.
Defined.

(** The page of [Samples.checkout_empty]: the table and its header row are
    found, the body has no row, and [parse] raises instead of returning a
    [ResourceData] with an empty body. *)
Lemma empty_table_is_a_fault :
  select (soup Samples.checkout_empty) ".sponge-guide-Box-table" <> []
  /\ select_one (soup Samples.checkout_empty) head_row <> None
  /\ select (soup Samples.checkout_empty) ".sponge-guide-Box-table tbody" <> []
  /\ select (soup Samples.checkout_empty) body_rows = []
  /\ outcome (library.CheckoutList.parse Samples.checkout_empty)
     = Raise (ParsingError no_body_message Samples.checkout_empty)
  /\ outcome (lib.Library.parse Samples.checkout_empty)
     = Raise (ParsingError no_body_message Samples.checkout_empty)
  /\ ~ (exists head l,
          outcome (library.CheckoutList.parse Samples.checkout_empty)
          = Ok (PyResourceData [("head", head); ("body", PyList [])] l))
  /\ ~ (exists head l,
          outcome (lib.Library.parse Samples.checkout_empty)
          = Ok (PyResourceData [("head", head); ("body", PyList [])] l)).
Proof.
  assert (H1 : outcome (library.CheckoutList.parse Samples.checkout_empty)
               = Raise (ParsingError no_body_message Samples.checkout_empty))
    by (vm_compute; reflexivity).
  assert (H2 : outcome (lib.Library.parse Samples.checkout_empty)
               = Raise (ParsingError no_body_message Samples.checkout_empty))
    by (vm_compute; reflexivity).
  repeat split; try (vm_compute; discriminate); try (vm_compute; reflexivity).
  - intros (head & l & Hv). rewrite H1 in Hv. discriminate.
  - intros (head & l & Hv). rewrite H2 in Hv. discriminate.
Qed.

(** ** Login, markup variant: [lib.Login.parse] *)

Section LibLogin.
Context {Tag : Type} `{DocumentQuery Tag} `{DateConversion}.
Implicit Types (r : Response Tag) (cookies : list (string * string)).

Lemma lib_Login_parse_run r cookies ul li d t :
  select_one (soup r) info_box = Some ul ->
  select ul "li" !! 1%nat = Some li ->
  headers_get (headers r) "date" = Some d ->
  httpdate_to_unixtime d = Some t ->
  lib.Login.parse r cookies
  = if String.eqb (text li) "HOME"
    then Ok (PyErrorData [("title", PyStr login_failed_title)] (url r))
    else Ok (PyResourceData
               [("cookies", str_dict cookies);
                ("validate-content", PyStr (text li));
                ("iat", PyInt t)]
               (url r)).
Proof.
  unfold lib.Login.parse, info_box. intros -> Hli Hd Ht.
  cbn [select_of bind]. change 1 with (Z.of_nat 1).
  rewrite (getitem_lookup _ _ _ Hli). cbn [bind].
  unfold headers_getitem, convert_date. rewrite Hd. cbn [bind].
  rewrite Ht. reflexivity.
Qed.

Lemma lib_Login_parse_inv r cookies v :
  lib.Login.parse r cookies = Ok v ->
  exists ul li d t,
    select_one (soup r) info_box = Some ul
    /\ select ul "li" !! 1%nat = Some li
    /\ headers_get (headers r) "date" = Some d
    /\ httpdate_to_unixtime d = Some t.
Proof.
  unfold lib.Login.parse, info_box.
  destruct (select_one (soup r) _) as [ul|]; [|discriminate].
  cbn [select_of bind]. unfold getitem.
  destruct (norm_index (length (select ul "li")) 1) as [n|] eqn:Hn; [|discriminate].
  assert (n = 1%nat) as ->.
  { unfold norm_index in Hn. cbn [Z.ltb Z.compare] in Hn.
    destruct (_ && _); [now injection Hn as <- | discriminate]. }
  destruct (select ul "li" !! 1%nat) as [li|] eqn:Hli; [|discriminate].
  cbn [bind]. unfold headers_getitem, convert_date.
  destruct (headers_get (headers r) "date") as [d|] eqn:Hd; [|discriminate].
  cbn [bind]. destruct (httpdate_to_unixtime d) as [t|] eqn:Ht; [|discriminate].
  intros _. exists ul, li, d, t. repeat split; assumption.
Qed.

Lemma lib_Login_parse_no_info_box r cookies :
  select_one (soup r) info_box = None ->
  lib.Login.parse r cookies = Raise AttributeError.
Proof. unfold lib.Login.parse, info_box. now intros ->. Qed.

Lemma lib_Login_parse_no_second_item r cookies ul :
  select_one (soup r) info_box = Some ul ->
  (length (select ul "li") < 2)%nat ->
  lib.Login.parse r cookies = Raise IndexError.
Proof.
  unfold lib.Login.parse, info_box. intros -> Hlen. cbn [select_of bind].
  change 1 with (Z.of_nat 1). rewrite getitem_short by lia. reflexivity.
Qed.

Lemma lib_Login_parse_no_date r cookies :
  headers_get (headers r) "date" = None ->
  raises (lib.Login.parse r cookies).
Proof.
  intros Hd. unfold lib.Login.parse, raises.
  destruct (select_of _ _) as [lis|e]; cbn [bind]; [|eauto].
  destruct (getitem lis 1) as [li|e]; cbn [bind]; [|eauto].
  unfold headers_getitem. rewrite Hd. cbn [bind]. eauto.
Qed.
End LibLogin.

(** C10.  [lib.Login.parse] reads the info box, its second list item and the
    [date] header before it compares the item with ["HOME"]: whenever it
    returns a value, the login-failure [ErrorData] included, the info box,
    its second item and a [date] header that converts are all present; and on
    a response without the info box, without a second item or without a
    [date] header it raises instead of returning either variant. *)
Theorem markup_login_preconditions {Tag : Type} `{DocumentQuery Tag} `{DateConversion}
    (r : Response Tag) (cookies : list (string * string)) :
  (forall v, lib.Login.parse r cookies = Ok v ->
     exists ul li d t,
       select_one (soup r) info_box = Some ul
       /\ select ul "li" !! 1%nat = Some li
       /\ headers_get (headers r) "date" = Some d
       /\ httpdate_to_unixtime d = Some t)
  /\
  (select_one (soup r) info_box = None
   \/ (exists ul, select_one (soup r) info_box = Some ul
                  /\ (length (select ul "li") < 2)%nat)
   \/ headers_get (headers r) "date" = None ->
   raises (lib.Login.parse r cookies)).
Proof.
  split.
  - intros v. apply lib_Login_parse_inv.
  - intros [Hbox | [(ul & Hbox & Hlen) | Hd]].
    + exists AttributeError. now apply lib_Login_parse_no_info_box.
    + exists IndexError. now apply lib_Login_parse_no_second_item with ul.
    + now apply lib_Login_parse_no_date.
Qed.

Lemma markup_login_preconditions_witness :
  raises (lib.Login.parse Samples.main_home_undated [])
  /\ raises (lib.Login.parse Samples.logon_alert [])
  /\ exists ul li d t,
       select_one (soup Samples.main_home) info_box = Some ul
       /\ select ul "li" !! 1%nat = Some li
       /\ headers_get (headers Samples.main_home) "date" = Some d
       /\ httpdate_to_unixtime d = Some t.
Proof.
  split; [|split].
  - apply (proj2 (markup_login_preconditions Samples.main_home_undated [])).
    right. right. reflexivity.
  - apply (proj2 (markup_login_preconditions Samples.logon_alert [])).
    left. reflexivity.
  - apply (proj1 (markup_login_preconditions Samples.main_home [])
             (PyErrorData [("title", PyStr login_failed_title)]
                "https://lib.bible.ac.kr/MyLibrary")).
    vm_compute. reflexivity.
Defined.

(** C7, as the code has it.  Let the second item of the info box read [li].
    When [li] is ["HOME"], [lib.Login.parse] never returns a [ResourceData];
    and when the response carries a [date] header that converts to [t], it
    returns the login-failed [ErrorData] with the URL of the response as link
    if [li] is ["HOME"], and otherwise the [ResourceData] of the given
    cookies, [li] as validate-content and [t] as iat. *)
Theorem markup_login_outcomes {Tag : Type} `{DocumentQuery Tag} `{DateConversion}
    (r : Response Tag) (cookies : list (string * string)) (ul li : Tag) :
  select_one (soup r) info_box = Some ul ->
  select ul "li" !! 1%nat = Some li ->
  (text li = "HOME" ->
   forall v, lib.Login.parse r cookies = Ok v -> is_ResourceData v = false)
  /\
  (forall d t,
     headers_get (headers r) "date" = Some d ->
     httpdate_to_unixtime d = Some t ->
     (text li = "HOME" ->
      lib.Login.parse r cookies
      = Ok (PyErrorData [("title", PyStr login_failed_title)] (url r)))
     /\
     (text li <> "HOME" ->
      lib.Login.parse r cookies
      = Ok (PyResourceData
              [("cookies", str_dict cookies);
               ("validate-content", PyStr (text li));
               ("iat", PyInt t)]
              (url r)))).
Proof.
  intros Hbox Hli. split.
  - intros Hhome v Hv.
    destruct (lib_Login_parse_inv r cookies v Hv) as (ul' & li' & d & t & Hb & Hl & Hd & Ht).
    rewrite Hbox in Hb. injection Hb as <-. rewrite Hli in Hl. injection Hl as <-.
    rewrite (lib_Login_parse_run r cookies ul li d t Hbox Hli Hd Ht), Hhome in Hv.
    cbn in Hv. now injection Hv as <-.
  - intros d t Hd Ht.
    rewrite (lib_Login_parse_run r cookies ul li d t Hbox Hli Hd Ht).
    split; intros Hhome.
    + now rewrite Hhome.
    + now destruct (String.eqb_spec (text li) "HOME").
Qed.

Lemma markup_login_outcomes_witness :
  lib.Login.parse Samples.main_home [("ASP.NET_SessionId", "abc")]
  = Ok (PyErrorData [("title", PyStr login_failed_title)]
          "https://lib.bible.ac.kr/MyLibrary")
  /\ lib.Login.parse Samples.main_user [("ASP.NET_SessionId", "abc")]
     = Ok (PyResourceData
             [("cookies", PyDict [("ASP.NET_SessionId", PyStr "abc")]);
              ("validate-content", PyStr "LOGOUT");
              ("iat", PyInt 1647316800)]
             "https://lib.bible.ac.kr/MyLibrary").
Proof.
  split.
  - set (ul := Samples.found (select_one (soup Samples.main_home) info_box)).
    set (li := Samples.found (select ul "li" !! 1%nat)).
    assert (Hbox : select_one (soup Samples.main_home) info_box = Some ul)
      by (vm_compute; reflexivity).
    assert (Hli : select ul "li" !! 1%nat = Some li) by (vm_compute; reflexivity).
    destruct (proj2 (markup_login_outcomes Samples.main_home
                       [("ASP.NET_SessionId", "abc")] ul li Hbox Hli)
                "Tue, 15 Mar 2022 04:00:00 GMT" 1647316800
                ltac:(vm_compute; reflexivity) ltac:(vm_compute; reflexivity))
      as [Hok _].
    rewrite Hok; [reflexivity | reflexivity].
  - set (ul := Samples.found (select_one (soup Samples.main_user) info_box)).
    set (li := Samples.found (select ul "li" !! 1%nat)).
    assert (Hbox : select_one (soup Samples.main_user) info_box = Some ul)
      by (vm_compute; reflexivity).
    assert (Hli : select ul "li" !! 1%nat = Some li) by (vm_compute; reflexivity).
    destruct (proj2 (markup_login_outcomes Samples.main_user
                       [("ASP.NET_SessionId", "abc")] ul li Hbox Hli)
                "Tue, 15 Mar 2022 04:00:00 GMT" 1647316800
                ltac:(vm_compute; reflexivity) ltac:(vm_compute; reflexivity))
      as [_ Hok].
    rewrite Hok; [reflexivity | vm_compute; discriminate].
Defined.

(** The main page of [Samples.main_home_undated]: the second item of the info
    box reads ["HOME"], the response has no [date] header, and
    [lib.Login.parse] raises [KeyError] instead of returning an
    [ErrorData]. *)
Lemma markup_login_home_without_date :
  (exists ul li,
     select_one (soup Samples.main_home_undated) info_box = Some ul
     /\ select ul "li" !! 1%nat = Some li
     /\ text li = "HOME")
  /\ lib.Login.parse Samples.main_home_undated [] = Raise (KeyError "date")
  /\ ~ (exists v, lib.Login.parse Samples.main_home_undated [] = Ok v
                  /\ is_ErrorData v = true).
Proof.
  assert (Hrun : lib.Login.parse Samples.main_home_undated [] = Raise (KeyError "date"))
    by (vm_compute; reflexivity).
  split; [|split].
  - do 2 eexists. split; [reflexivity|]. split; reflexivity.
  - exact Hrun.
  - intros (v & Hv & _). rewrite Hrun in Hv. discriminate.
Qed.

(** ** The pattern [ErrorCode=(\d+)] *)

Lemma slice_split (n : nat) (s : string) : slice_to n s +:+ slice_from n s = s.
Proof.
  revert s. induction n as [|n IH]; intros [|c s]; try reflexivity.
  change (String c (slice_to n s +:+ slice_from n s) = String c s).
  now rewrite IH.
Qed.

Lemma join_app (l1 l2 : list string) : join (l1 ++ l2) = join l1 +:+ join l2.
Proof.
  induction l1 as [|ch l1 IH]; [reflexivity|].
  change (ch +:+ join (l1 ++ l2) = (ch +:+ join l1) +:+ join l2).
  rewrite IH. induction ch as [|c ch IHc]; [reflexivity|].
  change (String c (ch +:+ join l1 +:+ join l2)
          = String c ((ch +:+ join l1) +:+ join l2)).
  now rewrite IHc.
Qed.

(** Cutting a string into characters loses nothing. *)
Lemma join_utf8_chars (s : string) : join (utf8_chars s) = s.
Proof.
  induction s as [|c s IH]; [reflexivity|]. cbn [utf8_chars].
  destruct (utf8_chars s) as [|ch chs]; [now rewrite <- IH|].
  destruct (_ && _); rewrite <- IH; reflexivity.
Qed.

Lemma decimals_prefix_split (chars : list string) :
  exists others, chars = (decimals_prefix chars ++ others)%list.
Proof.
  induction chars as [|ch chars [others IH]]; [now exists []|].
  cbn [decimals_prefix]. destruct (isdecimal ch).
  - exists others. cbn [app]. now rewrite <- IH.
  - now exists (ch :: chars).
Qed.

(** The digits that [\d*] consumes are a prefix of the string. *)
Lemma digits_prefix_split (s : string) : exists rest, s = digits_prefix s +:+ rest.
Proof.
  destruct (decimals_prefix_split (utf8_chars s)) as [others Hs].
  exists (join others). unfold digits_prefix.
  now rewrite <- join_app, <- Hs, join_utf8_chars.
Qed.

Lemma match_ErrorCode_here_sound (s d : string) :
  match_ErrorCode_here s = Some d ->
  exists after,
    s = "ErrorCode=" +:+ after /\ d = digits_prefix after /\ d <> "".
Proof.
  unfold match_ErrorCode_here.
  destruct (String.prefix "ErrorCode=" s) eqn:Hp; [|discriminate].
  apply prefix_correct in Hp. change (String.length "ErrorCode=") with 10%nat in Hp.
  rewrite <- slice_to_substring in Hp.
  destruct (digits_prefix (slice_from 10 s)) as [|c d'] eqn:Hdp; [discriminate|].
  intros [= <-]. exists (slice_from 10 s).
  split; [|split; [now rewrite Hdp | discriminate]].
  rewrite <- Hp. symmetry. apply slice_split.
Qed.

Lemma re_search_ErrorCode_sound (s d : string) :
  re_search_ErrorCode s = Some d ->
  exists pre after,
    s = pre +:+ "ErrorCode=" +:+ after /\ d = digits_prefix after /\ d <> "".
Proof.
  induction s as [|c s IH]; cbn [re_search_ErrorCode].
  - destruct (match_ErrorCode_here "") eqn:Hm; [|discriminate].
    intros [= ->]. apply match_ErrorCode_here_sound in Hm as (after & Hs & Hd).
    exists "", after. auto.
  - destruct (match_ErrorCode_here (String c s)) eqn:Hm.
    + intros [= ->]. apply match_ErrorCode_here_sound in Hm as (after & Hs & Hd).
      exists "", after. auto.
    + intros Hd. destruct (IH Hd) as (pre & after & Hs & Hafter).
      exists (String c pre), after. split; [|exact Hafter].
      change (String c s = String c (pre +:+ "ErrorCode=" +:+ after)).
      now rewrite <- Hs.
Qed.

(** The character classes on characters outside ASCII: a no-break space and
    an ideographic space are stripped, Korean text is kept; a fullwidth and an
    Arabic-Indic digit are matched by [\d]. *)
Example strip_unicode_space :
  strip (String (ascii_of_nat 194) (String (ascii_of_nat 160)
           ("대출중 " +:+ String (ascii_of_nat 227) (String (ascii_of_nat 128)
              (String (ascii_of_nat 128) "")))))
  = "대출중".
Proof. vm_compute. reflexivity. Qed.

Example search_unicode_digits :
  re_search_ErrorCode "/LogOn?ErrorCode=７٣&x=1" = Some "７٣"
  /\ re_search_ErrorCode "/LogOn?ErrorCode=x&ErrorCode=12a" = Some "12"
  /\ re_search_ErrorCode "/LogOn?ErrorCode=" = None.
Proof. vm_compute. repeat split. Qed.

(** An ASCII digit is a character of its own and a decimal digit. *)
Lemma utf8_chars_ascii_digit (c : ascii) (rest : string) :
  is_ascii_digit c = true ->
  utf8_chars (String c rest) = String c "" :: utf8_chars rest
  /\ isdecimal (String c "") = true.
Proof.
  intros Hc.
  assert (Hlow : (128 <=? nat_of_ascii c)%nat = false /\ isdecimal (String c "") = true).
  { destruct c as [[] [] [] [] [] [] [] []]; try discriminate Hc;
      split; vm_compute; reflexivity. }
  destruct Hlow as [Hlow Hdec]. split; [|exact Hdec].
  cbn [utf8_chars]. destruct (utf8_chars rest) as [|ch chs]; [reflexivity|].
  now rewrite Hlow, andb_false_r.
Qed.

(** A location that contains [ErrorCode=] followed by a digit is matched. *)
Lemma re_search_ErrorCode_complete (pre rest : string) (c : ascii) :
  is_ascii_digit c = true ->
  exists d, re_search_ErrorCode (pre +:+ "ErrorCode=" +:+ String c rest) = Some d.
Proof.
  intros Hc. induction pre as [|a pre (d & IH)].
  - change ("" +:+ "ErrorCode=" +:+ String c rest)
      with (String "E" (String "r" (String "r" (String "o" (String "r"
             (String "C" (String "o" (String "d" (String "e" (String "="
             (String c rest))))))))))).
    cbn [re_search_ErrorCode]. unfold match_ErrorCode_here.
    cbn [String.prefix slice_from].
    repeat match goal with
           | |- context [ascii_dec ?x ?y] => destruct (ascii_dec x y); [|congruence]
           end.
    unfold digits_prefix.
    destruct (utf8_chars_ascii_digit c rest Hc) as [-> Hdec].
    cbn [decimals_prefix]. rewrite Hdec. cbn [join fold_right].
    change (String c "" +:+ ?x) with (String c x). eauto.
  - change (String a pre +:+ "ErrorCode=" +:+ String c rest)
      with (String a (pre +:+ "ErrorCode=" +:+ String c rest)).
    cbn [re_search_ErrorCode].
    destruct (match_ErrorCode_here _) as [d'|]; [eauto|].
    exists d. exact IH.
Qed.

(** ** Login, redirect variant: [library.Login.parse] *)

Section LibraryLogin.
Context {Tag : Type} `{DocumentQuery Tag} `{DateConversion}.
Implicit Types (r : Response Tag).

Lemma library_Login_no_location r a :
  headers_get (headers r) "location" = None ->
  select_one (soup r) ".alert-warning" = Some a ->
  library.Login.parse r = Ok (PyErrorData [("title", PyStr (strip (text a)))] (url r)).
Proof.
  intros Hloc Ha. unfold library.Login.parse, headers_contains.
  rewrite Hloc, Ha. reflexivity.
Qed.

Lemma library_Login_no_location_no_alert r :
  headers_get (headers r) "location" = None ->
  select_one (soup r) ".alert-warning" = None ->
  library.Login.parse r = Raise AttributeError.
Proof.
  intros Hloc Ha. unfold library.Login.parse, headers_contains.
  rewrite Hloc, Ha. reflexivity.
Qed.

Lemma library_Login_error_code r loc n :
  headers_get (headers r) "location" = Some loc ->
  re_search_ErrorCode loc = Some n ->
  library.Login.parse r = Ok (PyErrorData [("code", PyStr n)] (url r)).
Proof.
  intros Hloc Hn. unfold library.Login.parse, headers_contains, headers_getitem.
  rewrite Hloc. cbn [negb bind]. now rewrite Hn.
Qed.

Lemma library_Login_redirected r loc :
  headers_get (headers r) "location" = Some loc ->
  re_search_ErrorCode loc = None ->
  library.Login.parse r
  = (date <- headers_getitem (headers r) "date" ;;
     iat <- convert_date date ;;
     Ok (PyResourceData
           [("cookies", str_dict (cookies r)); ("iat", PyInt iat)] (url r))).
Proof.
  intros Hloc Hn. unfold library.Login.parse, headers_contains, headers_getitem.
  rewrite Hloc. cbn [negb bind]. now rewrite Hn.
Qed.

Lemma library_Login_success r loc d t :
  headers_get (headers r) "location" = Some loc ->
  re_search_ErrorCode loc = None ->
  headers_get (headers r) "date" = Some d ->
  httpdate_to_unixtime d = Some t ->
  library.Login.parse r
  = Ok (PyResourceData [("cookies", str_dict (cookies r)); ("iat", PyInt t)] (url r)).
Proof.
  intros Hloc Hn Hd Ht. rewrite (library_Login_redirected r loc Hloc Hn).
  unfold headers_getitem, convert_date. rewrite Hd. cbn [bind]. now rewrite Ht.
Qed.

(** The three ways in which [library.Login.parse] returns. *)
Lemma library_Login_parse_inv r v :
  library.Login.parse r = Ok v ->
  (exists a, headers_get (headers r) "location" = None
             /\ select_one (soup r) ".alert-warning" = Some a
             /\ v = PyErrorData [("title", PyStr (strip (text a)))] (url r))
  \/ (exists loc n, headers_get (headers r) "location" = Some loc
                    /\ re_search_ErrorCode loc = Some n
                    /\ v = PyErrorData [("code", PyStr n)] (url r))
  \/ (exists loc d t, headers_get (headers r) "location" = Some loc
                      /\ re_search_ErrorCode loc = None
                      /\ headers_get (headers r) "date" = Some d
                      /\ httpdate_to_unixtime d = Some t
                      /\ v = PyResourceData
                               [("cookies", str_dict (cookies r)); ("iat", PyInt t)]
                               (url r)).
Proof.
  intros Hv.
  destruct (headers_get (headers r) "location") as [loc|] eqn:Hloc.
  - destruct (re_search_ErrorCode loc) as [n|] eqn:Hn.
    + rewrite (library_Login_error_code r loc n Hloc Hn) in Hv. injection Hv as <-.
      right. left. exists loc, n. auto.
    + rewrite (library_Login_redirected r loc Hloc Hn) in Hv.
      unfold headers_getitem, convert_date in Hv.
      destruct (headers_get (headers r) "date") as [d|] eqn:Hd; [|discriminate].
      cbn [bind] in Hv.
      destruct (httpdate_to_unixtime d) as [t|] eqn:Ht; [|discriminate].
      injection Hv as <-. right. right. exists loc, d, t. auto.
  - destruct (select_one (soup r) ".alert-warning") as [a|] eqn:Ha.
    + rewrite (library_Login_no_location r a Hloc Ha) in Hv. injection Hv as <-.
      left. exists a. auto.
    + rewrite (library_Login_no_location_no_alert r Hloc Ha) in Hv. discriminate.
Qed.
End LibraryLogin.

(** C6, as the code has it.  [library.Login.parse] evaluates its checks in
    order and the first match wins: without a [location] header, and with a
    warning-alert element in the markup, it returns the [ErrorData] whose
    title is the trimmed text of that element; otherwise, when the
    [location] header contains [ErrorCode=] followed by digits, it returns
    the [ErrorData] whose code is those digits, whatever else the response
    holds; otherwise, when the response carries a [date] header that converts
    to [t], it returns the [ResourceData] of the cookies of the response and
    [t] as iat. *)
Theorem redirect_login_outcomes {Tag : Type} `{DocumentQuery Tag} `{DateConversion}
    (r : Response Tag) :
  (forall a,
     headers_get (headers r) "location" = None ->
     select_one (soup r) ".alert-warning" = Some a ->
     library.Login.parse r
     = Ok (PyErrorData [("title", PyStr (strip (text a)))] (url r)))
  /\
  (forall loc n,
     headers_get (headers r) "location" = Some loc ->
     re_search_ErrorCode loc = Some n ->
     library.Login.parse r = Ok (PyErrorData [("code", PyStr n)] (url r)))
  /\
  (forall loc d t,
     headers_get (headers r) "location" = Some loc ->
     re_search_ErrorCode loc = None ->
     headers_get (headers r) "date" = Some d ->
     httpdate_to_unixtime d = Some t ->
     library.Login.parse r
     = Ok (PyResourceData
             [("cookies", str_dict (cookies r)); ("iat", PyInt t)] (url r))).
Proof.
  split; [|split].
  - intros a. apply library_Login_no_location.
  - intros loc n. apply library_Login_error_code.
  - intros loc d t. apply library_Login_success.
Qed.

Lemma redirect_login_outcomes_witness :
  library.Login.parse Samples.logon_alert
  = Ok (PyErrorData [("title", PyStr "아이디를 입력하세요.")]
          "https://lib.bible.ac.kr/MyLibrary")
  /\ library.Login.parse Samples.logon_error7
     = Ok (PyErrorData [("code", PyStr "7")] "https://lib.bible.ac.kr/MyLibrary")
  /\ library.Login.parse Samples.logon_ok
     = Ok (PyResourceData
             [("cookies", PyDict [("ASP.NET_SessionId", PyStr "abc")]);
              ("iat", PyInt 1647316800)]
             "https://lib.bible.ac.kr/MyLibrary").
Proof.
  split; [|split].
  - set (a := Samples.found (select_one (soup Samples.logon_alert) ".alert-warning")).
    rewrite (proj1 (redirect_login_outcomes Samples.logon_alert) a
               ltac:(vm_compute; reflexivity) ltac:(vm_compute; reflexivity)).
    vm_compute. reflexivity.
  - apply (proj1 (proj2 (redirect_login_outcomes Samples.logon_error7))
             "/Account/LogOn?ErrorCode=7" "7");
      vm_compute; reflexivity.
  - apply (proj2 (proj2 (redirect_login_outcomes Samples.logon_ok))
             "/" "Tue, 15 Mar 2022 04:00:00 GMT" 1647316800);
      vm_compute; reflexivity.
Defined.

(** The answer of [Samples.logon_ok_undated]: a [location] header without an
    error code, no [date] header, and [library.Login.parse] raises [KeyError]
    instead of returning a [ResourceData]. *)
Lemma redirect_login_without_date :
  headers_get (headers Samples.logon_ok_undated) "location" = Some "/"
  /\ re_search_ErrorCode "/" = None
  /\ library.Login.parse Samples.logon_ok_undated = Raise (KeyError "date")
  /\ ~ (exists v, library.Login.parse Samples.logon_ok_undated = Ok v
                  /\ is_ResourceData v = true).
Proof.
  assert (Hrun : library.Login.parse Samples.logon_ok_undated = Raise (KeyError "date"))
    by (vm_compute; reflexivity).
  split; [reflexivity|]. split; [reflexivity|]. split; [exact Hrun|].
  intros (v & Hv & _). rewrite Hrun in Hv. discriminate.
Qed.

(** ** The date conversion against the calendar *)

Module HttpDateFacts.
Import HttpDate.

Lemma days_from_civil_eq (y m d : Z) :
  days_from_civil y m d
  = era_days (if m <=? 2 then y - 1 else y)
    + (153 * (if m <=? 2 then m + 9 else m - 3) + 2) / 5 + d - 1 - 719468.
Proof. unfold days_from_civil, era_days. cbv zeta. lia. Qed.

(** One year of the shifted calendar has 365 or 366 days, by the leap-year
    rule. *)
Lemma era_days_step (y : Z) : era_days y = era_days (y - 1) + days_in_year y.
Proof.
  unfold era_days, days_in_year, is_leap. cbv zeta.
  destruct (Z.eqb_spec (y mod 4) 0), (Z.eqb_spec (y mod 100) 0),
    (Z.eqb_spec (y mod 400) 0); cbn [andb orb negb];
    Z.to_euclidean_division_equations; lia.
Qed.

Lemma days_from_civil_year_step (y : Z) :
  days_from_civil (y + 1) 1 1 = days_from_civil y 1 1 + days_in_year y.
Proof.
  rewrite !days_from_civil_eq. change (1 <=? 2) with true. cbv iota.
  replace (y + 1 - 1) with y by lia. rewrite (era_days_step y). lia.
Qed.

Lemma days_from_civil_years (n : nat) (y0 : Z) :
  days_from_civil (y0 + Z.of_nat n) 1 1 = days_from_civil y0 1 1 + days_of_years n y0.
Proof.
  revert y0. induction n as [|n IH]; intros y0.
  - cbn [days_of_years]. replace (y0 + Z.of_nat 0) with y0 by lia. lia.
  - cbn [days_of_years].
    replace (y0 + Z.of_nat (S n)) with (y0 + 1 + Z.of_nat n) by lia.
    rewrite IH, days_from_civil_year_step. lia.
Qed.

(** Evaluate the closed numerals of a goal. *)
Ltac compute_closed :=
  repeat match goal with
         | |- context [Z.to_nat ?a] =>
             let v := eval vm_compute in (Z.to_nat a) in change (Z.to_nat a) with v
         | |- context [Z.div ?a ?b] =>
             let v := eval vm_compute in (Z.div a b) in change (Z.div a b) with v
         | |- context [Z.leb ?a ?b] =>
             let v := eval vm_compute in (Z.leb a b) in change (Z.leb a b) with v
         | |- context [Z.eqb ?a ?b] =>
             let v := eval vm_compute in (Z.eqb a b) in change (Z.eqb a b) with v
         end.

Lemma days_from_civil_months (y m d : Z) :
  1 <= m <= 12 ->
  days_from_civil y m d
  = days_from_civil y 1 1 + days_of_months y (Z.to_nat (m - 1)) + (d - 1).
Proof.
  intros Hm.
  assert (Hcases : m = 1 \/ m = 2 \/ m = 3 \/ m = 4 \/ m = 5 \/ m = 6 \/ m = 7
                   \/ m = 8 \/ m = 9 \/ m = 10 \/ m = 11 \/ m = 12) by lia.
  rewrite !days_from_civil_eq.
  pose proof (era_days_step y) as Hstep. unfold days_in_year in Hstep.
  revert Hstep.
  repeat (destruct Hcases as [-> | Hcases]); try subst m;
    compute_closed; cbn [days_of_months]; unfold days_in_month;
    compute_closed; cbn [orb]; cbv iota;
    destruct (is_leap y); lia.
Qed.

(** The closed formula counts the days since 1970-01-01. *)
Lemma days_from_civil_counts (y m d : Z) :
  1970 <= y -> 1 <= m <= 12 ->
  days_from_civil y m d = days_since_epoch y m d.
Proof.
  intros Hy Hm. unfold days_since_epoch.
  rewrite (days_from_civil_months y m d Hm).
  replace y with (1970 + Z.of_nat (Z.to_nat (y - 1970))) at 1 by lia.
  rewrite days_from_civil_years.
  change (days_from_civil 1970 1 1) with 0. lia.
Qed.

Lemma month_from_range (names : list string) (i m : Z) (s : string) :
  month_from i names s = Some m -> i <= m < i + Z.of_nat (length names).
Proof.
  revert i. induction names as [|n names IH]; intros i; [discriminate|].
  cbn [month_from length]. destruct (String.eqb n s).
  - intros [= <-]. lia.
  - intros Hm. apply IH in Hm. lia.
Qed.

Lemma fields_month (s : string) (y m d hh mm ss : Z) :
  fields s = Some (y, m, d, hh, mm, ss) -> 1 <= m <= 12.
Proof.
  unfold fields. destruct (negb _); [discriminate|].
  destruct (number (substring 5 2 s)); [|discriminate].
  destruct (month_from 1 months (substring 8 3 s)) as [m'|] eqn:Hm; [|discriminate].
  destruct (number (substring 12 4 s)); [|discriminate].
  destruct (number (substring 17 2 s)); [|discriminate].
  destruct (number (substring 20 2 s)); [|discriminate].
  destruct (number (substring 23 2 s)); [|discriminate].
  intros [= _ <- _ _ _ _]. apply month_from_range in Hm. cbn in Hm. lia.
Qed.

(** The conversion gives the Unix time of the date that the string names. *)
Lemma to_unixtime_counts (s : string) (y m d hh mm ss : Z) :
  fields s = Some (y, m, d, hh, mm, ss) -> 1970 <= y ->
  to_unixtime s = Some (unix_time y m d hh mm ss).
Proof.
  intros Hf Hy. unfold to_unixtime, unix_time. rewrite Hf.
  now rewrite (days_from_civil_counts y m d Hy (fields_month _ _ _ _ _ _ _ Hf)).
Qed.

End HttpDateFacts.

(** C8.  When a login response carries a [date] header and [parse] succeeds,
    the iat field of the returned [ResourceData] is the Unix time of the date
    in that header, in the markup variant as in the redirect variant: for the
    HTTP-format date of year [y] (1970 or later), month [m], day [d] and time
    [hh:mm:ss] GMT, iat is the number of seconds since 1970-01-01 00:00:00
    GMT, counted day by day over the Gregorian calendar. *)
Theorem login_iat {Tag : Type} `{DocumentQuery Tag}
    (r : Response Tag) (cookies : list (string * string)) (v : pyobj)
    (date : string) (y m d hh mm ss : Z) :
  headers_get (headers r) "date" = Some date ->
  HttpDate.fields date = Some (y, m, d, hh, mm, ss) ->
  1970 <= y ->
  is_ResourceData v = true ->
  lib.Login.parse r cookies = Ok v \/ library.Login.parse r = Ok v ->
  dict_get (data_of v) "iat" = Some (PyInt (HttpDate.unix_time y m d hh mm ss)).
Proof.
  intros Hd Hf Hy Hres Hv.
  pose proof (HttpDateFacts.to_unixtime_counts date y m d hh mm ss Hf Hy) as Hconv.
  destruct Hv as [Hv | Hv].
  - destruct (lib_Login_parse_inv r cookies v Hv)
      as (ul & li & d' & t & Hbox & Hli & Hd' & Ht).
    rewrite Hd in Hd'. injection Hd' as <-.
    rewrite (lib_Login_parse_run r cookies ul li date t Hbox Hli Hd Ht) in Hv.
    cbn [httpdate_to_unixtime HttpDate.conversion] in Ht.
    rewrite Hconv in Ht. injection Ht as <-.
    destruct (String.eqb (text li) "HOME"); injection Hv as <-;
      [discriminate Hres | reflexivity].
  - destruct (library_Login_parse_inv r v Hv)
      as [(a & _ & _ & ->) | [(loc & n & _ & _ & ->) | (loc & d' & t & _ & _ & Hd' & Ht & ->)]];
      try discriminate Hres.
    rewrite Hd in Hd'. injection Hd' as <-.
    cbn [httpdate_to_unixtime HttpDate.conversion] in Ht.
    rewrite Hconv in Ht. injection Ht as <-. reflexivity.
Qed.

Lemma login_iat_witness :
  dict_get (data_of (Samples.returned (lib.Login.parse Samples.main_user []))) "iat"
  = Some (PyInt 1647316800)
  /\ dict_get (data_of (Samples.returned (library.Login.parse Samples.logon_ok))) "iat"
     = Some (PyInt 1647316800).
Proof.
  assert (Hunix : HttpDate.unix_time 2022 3 15 4 0 0 = 1647316800)
    by (vm_compute; reflexivity).
  rewrite <- Hunix. split.
  - apply (login_iat Samples.main_user []
             (Samples.returned (lib.Login.parse Samples.main_user []))
             "Tue, 15 Mar 2022 04:00:00 GMT").
    + vm_compute; reflexivity.
    + vm_compute; reflexivity.
    + lia.
    + vm_compute; reflexivity.
    + left. vm_compute; reflexivity.
  - apply (login_iat Samples.logon_ok []
             (Samples.returned (library.Login.parse Samples.logon_ok))
             "Tue, 15 Mar 2022 04:00:00 GMT").
    + vm_compute; reflexivity.
    + vm_compute; reflexivity.
    + lia.
    + vm_compute; reflexivity.
    + right. vm_compute; reflexivity.
Defined.

(** ** The shape of what [parse] returns *)

Section Results.
Context {Tag : Type} `{DocumentQuery Tag} `{DateConversion} `{IParserPrecondition Tag}.
Implicit Types (r : Response Tag) (v : pyobj).

Lemma result_ResourceData (data : list (string * pyobj)) (u : string) :
  result_with_link (PyResourceData data u) u.
Proof. split; reflexivity. Qed.

Lemma result_ErrorData (error : list (string * pyobj)) (u : string) :
  result_with_link (PyErrorData error u) u.
Proof. split; reflexivity. Qed.

Lemma lib_Login_result r cookies v :
  lib.Login.parse r cookies = Ok v -> result_with_link v (url r).
Proof.
  intros Hv.
  destruct (lib_Login_parse_inv r cookies v Hv)
    as (ul & li & d & t & Hbox & Hli & Hd & Ht).
  rewrite (lib_Login_parse_run r cookies ul li d t Hbox Hli Hd Ht) in Hv.
  destruct (String.eqb (text li) "HOME"); injection Hv as <-;
    [apply result_ErrorData | apply result_ResourceData].
Qed.

Lemma library_Login_result r v :
  library.Login.parse r = Ok v -> result_with_link v (url r).
Proof.
  intros Hv.
  destruct (library_Login_parse_inv r v Hv)
    as [(a & _ & _ & ->) | [(loc & n & _ & _ & ->) | (loc & d & t & _ & _ & _ & _ & ->)]];
    [apply result_ErrorData | apply result_ErrorData | apply result_ResourceData].
Qed.

Lemma lib_Library_result r v :
  outcome (lib.Library.parse r) = Ok v -> result_with_link v (url r).
Proof.
  rewrite lib_parse_outcome.
  destruct (first_blocking registered r) as [err|] eqn:Hgate.
  - intros [= <-]. apply blocked_is_ErrorData in Hgate as [Herr Hlink].
    split; [now destruct err | exact Hlink].
  - intros Hv. apply lib_parse_undecorated_inv in Hv as (head & body & _ & _ & ->).
    apply result_ResourceData.
Qed.

Lemma library_CheckoutList_result r v :
  outcome (library.CheckoutList.parse r) = Ok v -> result_with_link v (url r).
Proof.
  rewrite library_parse_outcome.
  destruct (first_blocking registered r) as [err|] eqn:Hgate.
  - intros [= <-]. apply blocked_is_ErrorData in Hgate as [Herr Hlink].
    split; [now destruct err | exact Hlink].
  - intros Hv. apply library_parse_undecorated_inv in Hv as (head & body & _ & _ & ->).
    apply result_ResourceData.
Qed.

Lemma lib_BookPhoto_result r v :
  lib.BookPhoto.parse r = Ok v -> result_with_link v (url r).
Proof.
  unfold lib.BookPhoto.parse. intros Hv. apply bind_Ok in Hv as (img_url & _ & Hv).
  destruct (re_match_http img_url); injection Hv as <-;
    [apply result_ResourceData | apply result_ErrorData].
Qed.

Lemma library_BookDetail_shape r v :
  library.BookDetail.parse r = Ok v ->
  exists isbn img,
    v = PyList [PyStr isbn; img]
    /\ (img = PyNone \/ exists u, img = PyStr u /\ re_match_http u = true).
Proof.
  unfold library.BookDetail.parse. intros Hv.
  apply bind_Ok in Hv as (cell & _ & Hv).
  apply bind_Ok in Hv as (img_url & _ & Hv). injection Hv as <-.
  do 2 eexists. split; [reflexivity|].
  destruct (re_match_http img_url) eqn:Hm; cbn [negb]; eauto.
Qed.
End Results.

(** C4, as the code has it.  Whenever it returns, [parse] of [Login] (both
    variants), of the gated [Library] and [CheckoutList], of [lib.BookPhoto],
    and of [library.BookPhoto] on an image content type, returns exactly one
    of the variants [ResourceData] and [ErrorData], and the link of the
    returned variant is the URL of the response.  [BookDetail.parse] returns
    no result variant: it returns the two-element list of the ISBN text and
    of the cover URL, the latter replaced by [None] when it is not an
    absolute HTTP(S) URL. *)
Theorem parse_results {Tag : Type} `{DocumentQuery Tag} `{DateConversion}
    `{IParserPrecondition Tag}
    (r : Response Tag) (cookies : list (string * string)) (v : pyobj) :
  (lib.Login.parse r cookies = Ok v
   \/ library.Login.parse r = Ok v
   \/ outcome (lib.Library.parse r) = Ok v
   \/ outcome (library.CheckoutList.parse r) = Ok v
   \/ lib.BookPhoto.parse r = Ok v
   \/ (library.BookPhoto.parse r = Ok v
       /\ exists ct, headers_get (headers r) "content-type" = Some ct
                     /\ String.prefix "image" ct = true) ->
   result_with_link v (url r))
  /\
  (library.BookDetail.parse r = Ok v ->
   exists isbn img,
     v = PyList [PyStr isbn; img]
     /\ (img = PyNone \/ exists u, img = PyStr u /\ re_match_http u = true)).
Proof.
  split.
  - intros [Hv | [Hv | [Hv | [Hv | [Hv | (Hv & ct & Hct & Himg)]]]]].
    + now apply lib_Login_result with cookies.
    + now apply library_Login_result.
    + now apply lib_Library_result.
    + now apply library_CheckoutList_result.
    + now apply lib_BookPhoto_result.
    + rewrite (BookPhoto_parse_image r ct Hct Himg) in Hv. injection Hv as <-.
      apply result_ResourceData.
  - apply library_BookDetail_shape.
Qed.

Lemma parse_results_witness :
  result_with_link
    (Samples.returned (outcome (library.CheckoutList.parse Samples.checkout_page8)))
    "https://lib.bible.ac.kr/MyLibrary"
  /\ result_with_link
       (Samples.returned (library.Login.parse Samples.logon_error7))
       "https://lib.bible.ac.kr/MyLibrary"
  /\ exists isbn img,
       Samples.returned (library.BookDetail.parse Samples.detail_without_cover)
       = PyList [PyStr isbn; img]
       /\ (img = PyNone \/ exists u, img = PyStr u /\ re_match_http u = true).
Proof.
  split; [|split].
  - apply (proj1 (parse_results Samples.checkout_page8 [] _)).
    right. right. right. left. vm_compute. reflexivity.
  - apply (proj1 (parse_results Samples.logon_error7 [] _)).
    right. left. vm_compute. reflexivity.
  - apply (proj2 (parse_results Samples.detail_without_cover [] _)).
    vm_compute. reflexivity.
Defined.

(** The detail page of [Samples.detail_with_cover]: [BookDetail.parse]
    returns a list, which is neither a [ResourceData] nor an [ErrorData] and
    has no link. *)
Lemma BookDetail_parse_returns_a_list :
  library.BookDetail.parse Samples.detail_with_cover
  = Ok (PyList [PyStr "9783540208549"; PyStr "https://image.example/1.jpg"])
  /\ is_APIResponseType
       (PyList [PyStr "9783540208549"; PyStr "https://image.example/1.jpg"]) = false
  /\ ~ (exists v,
          library.BookDetail.parse Samples.detail_with_cover = Ok v
          /\ result_with_link v (url Samples.detail_with_cover)).
Proof.
  assert (Hrun : library.BookDetail.parse Samples.detail_with_cover
                 = Ok (PyList [PyStr "9783540208549";
                               PyStr "https://image.example/1.jpg"]))
    by (vm_compute; reflexivity).
  split; [exact Hrun|]. split; [reflexivity|].
  intros (v & Hv & Hone & _). rewrite Hrun in Hv. injection Hv as <-.
  discriminate Hone.
Qed.

(** * Further properties of the code *)

(** ** Index operations, read backwards *)

Lemma norm_index_beyond (len n : nat) :
  (len <= n)%nat -> norm_index len (Z.of_nat n) = None.
Proof.
  intros Hn. unfold norm_index.
  replace (Z.of_nat n <? 0) with false by (symmetry; apply Z.ltb_ge; lia).
  replace (Z.of_nat n <? Z.of_nat len) with false by (symmetry; apply Z.ltb_ge; lia).
  now rewrite andb_false_r.
Qed.

Section ListInversions.
Context {R A : Type}.
Implicit Types (l : list A) (x : A).

Lemma delitem_short l (n : nat) :
  (length l <= n)%nat -> delitem (R := R) l (Z.of_nat n) = Raise IndexError.
Proof. intros Hn. unfold delitem. now rewrite norm_index_beyond. Qed.

Lemma setitem_short l (n : nat) x :
  (length l <= n)%nat -> setitem (R := R) l (Z.of_nat n) x = Raise IndexError.
Proof. intros Hn. unfold setitem. now rewrite norm_index_beyond. Qed.

Lemma getitem_Ok_nonneg l (n : nat) x :
  getitem (R := R) l (Z.of_nat n) = Ok x -> l !! n = Some x.
Proof.
  destruct (le_lt_dec (length l) n) as [Hn|Hn].
  - now rewrite getitem_short.
  - unfold getitem. rewrite norm_index_nonneg by exact Hn.
    destruct (l !! n); [now intros [= ->] | discriminate].
Qed.

Lemma delitem_Ok_nonneg l (n : nat) l' :
  delitem (R := R) l (Z.of_nat n) = Ok l' -> l' = delete n l /\ (n < length l)%nat.
Proof.
  destruct (le_lt_dec (length l) n) as [Hn|Hn].
  - now rewrite delitem_short.
  - rewrite delitem_nonneg by exact Hn. now intros [= <-].
Qed.

Lemma setitem_Ok_nonneg l (n : nat) x l' :
  setitem (R := R) l (Z.of_nat n) x = Ok l' -> l' = <[n:=x]> l /\ (n < length l)%nat.
Proof.
  destruct (le_lt_dec (length l) n) as [Hn|Hn].
  - now rewrite setitem_short.
  - rewrite setitem_nonneg by exact Hn. now intros [= <-].
Qed.

Lemma setitem_Ok_last l x l' :
  setitem (R := R) l (-1) x = Ok l' ->
  l' = <[(length l - 1)%nat:=x]> l /\ (0 < length l)%nat.
Proof.
  destruct (le_lt_dec (length l) 0) as [Hn|Hn].
  - destruct l; [discriminate | simpl in Hn; lia].
  - rewrite setitem_last by exact Hn. now intros [= <-].
Qed.
End ListInversions.

(** ** The head of the checkout table, cell by cell *)

Section HeadLabels.
Context {Tag : Type} `{DocumentQuery Tag}.
Implicit Types (r : Response Tag) (thead : Tag).

Lemma lib_parse_subject_eq r thead head :
  select_one (soup r) head_row = Some thead ->
  lib.Library.parse_subject r = Ok head ->
  (5 <= length (cell_texts thead "th"))%nat
  /\ head = <[(length (cell_texts thead "th") - 2)%nat:="도서URL"]>
              (delete 4%nat (cell_texts thead "th")).
Proof.
  unfold lib.Library.parse_subject, head_row, cell_texts. intros -> Hh.
  apply bind_Ok in Hh as (l1 & H1 & Hh).
  apply bind_Ok in Hh as (l2 & H2 & Hh). injection Hh as <-.
  change 4 with (Z.of_nat 4) in H1. apply delitem_Ok_nonneg in H1 as [-> Hlen].
  apply setitem_Ok_last in H2 as [-> _].
  split; [lia|].
  rewrite length_delete by (apply lookup_lt_is_Some_2; lia).
  f_equal. lia.
Qed.

Lemma library_parse_subject_eq r thead head :
  select_one (soup r) head_row = Some thead ->
  library.CheckoutList.parse_subject r = Ok head ->
  (5 <= length (cell_texts thead "th"))%nat
  /\ head = <[(length (cell_texts thead "th") - 2)%nat:="도서이미지"]>
              (<[0%nat:="ISBN"]> (delete 4%nat (cell_texts thead "th"))).
Proof.
  unfold library.CheckoutList.parse_subject, head_row, cell_texts. intros -> Hh.
  apply bind_Ok in Hh as (l1 & H1 & Hh).
  apply bind_Ok in Hh as (l2 & H2 & Hh).
  apply bind_Ok in Hh as (l3 & H3 & Hh). injection Hh as <-.
  change 4 with (Z.of_nat 4) in H1. apply delitem_Ok_nonneg in H1 as [-> Hlen].
  change 0 with (Z.of_nat 0) in H2. apply setitem_Ok_nonneg in H2 as [-> _].
  apply setitem_Ok_last in H3 as [-> _].
  split; [lia|].
  rewrite length_insert, length_delete by (apply lookup_lt_is_Some_2; lia).
  f_equal. lia.
Qed.

Lemma lookup_delete_raw_column (l : list string) (i : nat) :
  delete 4%nat l !! i = l !! raw_column i.
Proof.
  unfold raw_column. destruct (Nat.ltb_spec i 4).
  - now apply list_lookup_delete_lt.
  - now apply list_lookup_delete_ge.
Qed.
End HeadLabels.

(** X1.  A header row that is found but has fewer than five cells makes
    [parse_subject] raise [IndexError], at [del head[4]], not the
    [ParsingError] of a missing header. *)
Theorem parse_subject_short_header {Tag : Type} `{DocumentQuery Tag}
    (r : Response Tag) (thead : Tag) :
  select_one (soup r) head_row = Some thead ->
  (length (select thead "th") < 5)%nat ->
  lib.Library.parse_subject r = Raise IndexError
  /\ library.CheckoutList.parse_subject r = Raise IndexError.
Proof.
  intros Hsel Hn.
  unfold lib.Library.parse_subject, library.CheckoutList.parse_subject.
  unfold head_row in Hsel. rewrite Hsel.
  change 4 with (Z.of_nat 4).
  rewrite !delitem_short by (rewrite length_map; lia). split; reflexivity.
Qed.

Lemma parse_subject_short_header_witness :
  let r := Samples.response 200 [] (Samples.table (map Samples.th ["a"; "b"; "c"; "d"]) [])
  in lib.Library.parse_subject r = Raise IndexError
     /\ library.CheckoutList.parse_subject r = Raise IndexError.
Proof.
  intros r.
  apply (parse_subject_short_header r (Samples.found (select_one (soup r) head_row))).
  - vm_compute. reflexivity.
  - vm_compute. lia.
Defined.

(** X2.  The head keeps the other labels in place: every entry before the
    last is the stripped text of the header cell of the same raw column, the
    columns from index 4 on being shifted by the deletion; in
    [CheckoutList] the entry of index 0 is ["ISBN"] instead. *)
Theorem parse_subject_labels {Tag : Type} `{DocumentQuery Tag}
    (r : Response Tag) (thead : Tag) (head : list string) :
  select_one (soup r) head_row = Some thead ->
  (lib.Library.parse_subject r = Ok head ->
   forall i, (i < length head - 1)%nat ->
     head !! i = cell_texts thead "th" !! raw_column i)
  /\
  (library.CheckoutList.parse_subject r = Ok head ->
   head !! 0%nat = Some "ISBN"
   /\ forall i, (0 < i < length head - 1)%nat ->
        head !! i = cell_texts thead "th" !! raw_column i).
Proof.
  intros Hsel. split; intros Hh.
  - destruct (lib_parse_subject_eq r thead head Hsel Hh) as [Hlen ->].
    intros i. rewrite length_insert.
    rewrite length_delete by (apply lookup_lt_is_Some_2; lia). intros Hi.
    rewrite list_lookup_insert_ne by lia. apply lookup_delete_raw_column.
  - destruct (library_parse_subject_eq r thead head Hsel Hh) as [Hlen ->].
    assert (Hd : length (delete 4%nat (cell_texts thead "th"))
                 = (length (cell_texts thead "th") - 1)%nat)
      by (apply length_delete, lookup_lt_is_Some_2; lia).
    split.
    + rewrite list_lookup_insert_ne by lia.
      apply list_lookup_insert_eq. lia.
    + intros i. rewrite !length_insert, Hd. intros Hi.
      rewrite !list_lookup_insert_ne by lia. apply lookup_delete_raw_column.
Qed.

Lemma parse_subject_labels_witness :
  let thead := Samples.found (select_one (soup Samples.checkout_page9) head_row) in
  let head := ["ISBN"; "서지정보"; "대출일자"; "반납예정일"; "대출상태"; "연기신청";
               "연기횟수"; "도서이미지"] in
  head !! 0%nat = Some "ISBN"
  /\ forall i, (0 < i < length head - 1)%nat ->
       head !! i = cell_texts thead "th" !! raw_column i.
Proof.
  intros thead head.
  assert (Hsel : select_one (soup Samples.checkout_page9) head_row = Some thead)
    by (vm_compute; reflexivity).
  apply (proj2 (parse_subject_labels Samples.checkout_page9 thead head Hsel)).
  vm_compute. reflexivity.
Defined.

(** ** The body of the checkout table, row by row *)

Lemma for_each_all_or_nothing {R A B} (f : A -> Exc R B) (l : list A) (x : A)
    (e : exn R) :
  In x l -> f x = Raise e -> raises (for_each f l).
Proof.
  induction l as [|y l IH]; simpl; [contradiction|].
  intros [-> | Hin] Hx.
  - rewrite Hx. now exists e.
  - destruct (f y) as [b|e']; cbn [bind]; [|now exists e'].
    destruct (IH Hin Hx) as [e' ->]. now exists e'.
Qed.

Lemma remove_char_absent (c : ascii) (s : string) :
  has_char c (remove_char c s) = false.
Proof.
  induction s as [|a s IH]; [reflexivity|]. cbn [remove_char].
  destruct (Ascii.eqb a c) eqn:Hac; [exact IH|].
  cbn [has_char]. now rewrite Hac, IH.
Qed.

(** X3.  [parse_main_table] returns one row for every [tr] that the body
    selector finds, never an empty body, and it is all or nothing: one row
    on which [parse_row] raises makes the whole table raise, no row is
    skipped. *)
Theorem parse_main_table_rows {Tag : Type} `{DocumentQuery Tag} (r : Response Tag) :
  (forall body, lib.Library.parse_main_table r = Ok body ->
     body <> [] /\ length body = length (select (soup r) body_rows))
  /\ (forall tr e, In tr (select (soup r) body_rows) ->
        lib.Library.parse_row tr = Raise e ->
        raises (lib.Library.parse_main_table r))
  /\ (forall body, library.CheckoutList.parse_main_table r = Ok body ->
        body <> [] /\ length body = length (select (soup r) body_rows))
  /\ (forall tr e, In tr (select (soup r) body_rows) ->
        library.CheckoutList.parse_row tr = Raise e ->
        raises (library.CheckoutList.parse_main_table r)).
Proof.
  split; [|split; [|split]].
  - intros body Hb. apply lib_parse_main_table_inv in Hb as [Hne Hrows].
    apply Forall2_length in Hrows as Hlen. split; [|now symmetry].
    intros ->. destruct (select (soup r) body_rows); [now apply Hne | discriminate].
  - intros tr e Hin He. unfold lib.Library.parse_main_table.
    unfold body_rows in Hin.
    destruct (select (soup r) _) as [|tr0 trs]; [contradiction|].
    now apply for_each_all_or_nothing with tr e.
  - intros body Hb. apply library_parse_main_table_inv in Hb as [Hne Hrows].
    apply Forall2_length in Hrows as Hlen. split; [|now symmetry].
    intros ->. destruct (select (soup r) body_rows); [now apply Hne | discriminate].
  - intros tr e Hin He. unfold library.CheckoutList.parse_main_table.
    unfold body_rows in Hin.
    destruct (select (soup r) _) as [|tr0 trs]; [contradiction|].
    now apply for_each_all_or_nothing with tr e.
Qed.

Lemma parse_main_table_rows_witness :
  let body :=
    [ ["1"; "Coq'Art"; "2023-01-01"; "2023-01-15"; "대출중"; "0"; "1";
       "/Search/Detail/1"];
      ["2"; "SICP"; "2023-01-02"; "2023-01-16"; "대출중"; "0"; "1";
       "/Search/Detail/2"] ] in
  body <> [] /\ length body = length (select (soup Samples.checkout_page9) body_rows).
Proof.
  intros body.
  apply (proj1 (parse_main_table_rows Samples.checkout_page9) body).
  vm_compute. reflexivity.
Defined.

(** X4.  A row of [lib.Library] is built only from a [tr] with at least
    eight [td] cells and two date elements; its number, term and term-count
    entries hold no line break, and its last entry is the [href] of the first
    anchor of the title cell. *)
Theorem Library_parse_row_fields {Tag : Type} `{DocumentQuery Tag}
    (tr : Tag) (row : list string) :
  lib.Library.parse_row tr = Ok row ->
  (8 <= length (select tr "td"))%nat
  /\ (2 <= length (select tr ".left ul li strong"))%nat
  /\ exists num title loan_date return_date state term term_cnt url a,
       row = [num; title; loan_date; return_date; state; term; term_cnt; url]
       /\ has_char newline num = false
       /\ has_char newline term = false
       /\ has_char newline term_cnt = false
       /\ select tr ".left a" !! 0%nat = Some a
       /\ attr a "href" = Some url.
Proof.
  unfold lib.Library.parse_row. intros Hr.
  apply bind_Ok in Hr as (num & _ & Hr).
  apply bind_Ok in Hr as (title & _ & Hr).
  apply bind_Ok in Hr as (loan & _ & Hr).
  apply bind_Ok in Hr as (ret & Hret & Hr).
  apply bind_Ok in Hr as (state & _ & Hr).
  apply bind_Ok in Hr as (td6 & _ & Hr).
  apply bind_Ok in Hr as (td7 & Htd7 & Hr).
  apply bind_Ok in Hr as (a & Ha & Hr).
  apply bind_Ok in Hr as (url & Hurl & Hr). injection Hr as <-.
  change 1 with (Z.of_nat 1) in Hret. apply getitem_Ok_nonneg in Hret.
  change 7 with (Z.of_nat 7) in Htd7. apply getitem_Ok_nonneg in Htd7.
  change 0 with (Z.of_nat 0) in Ha. apply getitem_Ok_nonneg in Ha.
  apply lookup_lt_Some in Hret. apply lookup_lt_Some in Htd7.
  split; [lia|]. split; [lia|].
  do 9 eexists. split; [reflexivity|].
  rewrite !remove_char_absent. repeat split; [exact Ha|].
  unfold tag_getitem in Hurl. destruct (attr a "href"); [|discriminate].
  now injection Hurl as <-.
Qed.

Lemma Library_parse_row_fields_witness :
  let tr := Samples.found (select_one (soup Samples.checkout_page9) body_rows) in
  (8 <= length (select tr "td"))%nat
  /\ (2 <= length (select tr ".left ul li strong"))%nat
  /\ exists num title loan_date return_date state term term_cnt url a,
       ["1"; "Coq'Art"; "2023-01-01"; "2023-01-15"; "대출중"; "0"; "1";
        "/Search/Detail/1"]
       = [num; title; loan_date; return_date; state; term; term_cnt; url]
       /\ has_char newline num = false
       /\ has_char newline term = false
       /\ has_char newline term_cnt = false
       /\ select tr ".left a" !! 0%nat = Some a
       /\ attr a "href" = Some url.
Proof.
  intros tr. apply (Library_parse_row_fields tr). vm_compute. reflexivity.
Defined.

Section CheckoutRow.
Context {Tag : Type} `{DocumentQuery Tag}.

(** What [library.CheckoutList.parse_row] returns, as one expression. *)
Lemma library_parse_row_eq (tr : Tag) (row : list string) :
  library.CheckoutList.parse_row tr = Ok row ->
  exists strong a href,
    select_one tr "td a strong" = Some strong
    /\ select tr ".left a" !! 0%nat = Some a
    /\ attr a "href" = Some href
    /\ (5 <= length (cell_texts tr "td"))%nat
    /\ row = delete 4%nat
               (<[(length (cell_texts tr "td") - 1)%nat:=href]>
                  (<[1%nat:=strip (text strong)]> (cell_texts tr "td"))).
Proof.
  unfold library.CheckoutList.parse_row, cell_texts. intros Hr.
  apply bind_Ok in Hr as (title & Htitle & Hr).
  apply bind_Ok in Hr as (l1 & H1 & Hr).
  apply bind_Ok in Hr as (a & Ha & Hr).
  apply bind_Ok in Hr as (href & Hhref & Hr).
  apply bind_Ok in Hr as (l2 & H2 & Hr).
  apply bind_Ok in Hr as (l3 & H3 & Hr). injection Hr as <-.
  destruct (select_one tr "td a strong") as [strong|]; [|discriminate].
  injection Htitle as <-.
  change 1 with (Z.of_nat 1) in H1. apply setitem_Ok_nonneg in H1 as [-> _].
  change 0 with (Z.of_nat 0) in Ha. apply getitem_Ok_nonneg in Ha.
  unfold tag_getitem in Hhref.
  destruct (attr a "href") as [h|] eqn:Hattr; [|discriminate]. injection Hhref as <-.
  apply setitem_Ok_last in H2 as [-> _].
  change 4 with (Z.of_nat 4) in H3. apply delitem_Ok_nonneg in H3 as [-> Hlen].
  rewrite !length_insert in Hlen. rewrite length_insert.
  exists strong, a, h. repeat split; auto.
Qed.
End CheckoutRow.

(** X5.  A row of [library.CheckoutList] comes from a [tr] with at least
    five [td] cells and has one entry fewer than cells.  Its entry of index 1
    is the stripped text of the title element; when the [tr] has at least six
    cells its last entry is the [href] of the first anchor of the title cell;
    every other entry is the stripped text of the cell of the same raw
    column. *)
Theorem CheckoutList_parse_row_fields {Tag : Type} `{DocumentQuery Tag}
    (tr : Tag) (row : list string) :
  library.CheckoutList.parse_row tr = Ok row ->
  exists strong a href,
    select_one tr "td a strong" = Some strong
    /\ select tr ".left a" !! 0%nat = Some a
    /\ attr a "href" = Some href
    /\ (5 <= length (select tr "td"))%nat
    /\ row !! 1%nat = Some (strip (text strong))
    /\ ((6 <= length (select tr "td"))%nat -> last row = Some href)
    /\ forall i, i <> 1%nat -> (i < length row - 1)%nat ->
         row !! i = cell_texts tr "td" !! raw_column i.
Proof.
  intros Hr. apply library_parse_row_length in Hr as Hlen.
  destruct (library_parse_row_eq tr row Hr)
    as (strong & a & href & Hstrong & Ha & Hhref & Hn & ->).
  assert (Hc : length (cell_texts tr "td") = length (select tr "td"))
    by apply length_map.
  exists strong, a, href. repeat split; auto; [lia | | |].
  - rewrite list_lookup_delete_lt by lia.
    rewrite list_lookup_insert_ne by lia.
    apply list_lookup_insert_eq. lia.
  - intros H6. rewrite last_lookup.
    replace (Nat.pred _) with (length (select tr "td") - 2)%nat by lia.
    rewrite list_lookup_delete_ge by lia.
    replace (S (length (select tr "td") - 2)) with (length (cell_texts tr "td") - 1)%nat
      by lia.
    apply list_lookup_insert_eq. rewrite length_insert. lia.
  - intros i Hi1 Hi. rewrite lookup_delete_raw_column.
    assert (raw_column i <> 1%nat /\ (raw_column i < length (select tr "td") - 1)%nat)
      as [Hr1 Hr2].
    { unfold raw_column. destruct (Nat.ltb_spec i 4); lia. }
    rewrite !list_lookup_insert_ne by lia. reflexivity.
Qed.

Lemma CheckoutList_parse_row_fields_witness :
  let tr := Samples.found (select_one (soup Samples.checkout_page8) body_rows) in
  exists strong a href,
    select_one tr "td a strong" = Some strong
    /\ select tr ".left a" !! 0%nat = Some a
    /\ attr a "href" = Some href
    /\ (5 <= length (select tr "td"))%nat
    /\ ["1"; "Coq'Art"; "2023-01-01"; "2023-01-15"; "대출중"; "0"; "/Search/Detail/1"]
       !! 1%nat = Some (strip (text strong))
    /\ ((6 <= length (select tr "td"))%nat ->
        last ["1"; "Coq'Art"; "2023-01-01"; "2023-01-15"; "대출중"; "0";
              "/Search/Detail/1"] = Some href)
    /\ forall i, i <> 1%nat ->
         (i < length ["1"; "Coq'Art"; "2023-01-01"; "2023-01-15"; "대출중"; "0";
                      "/Search/Detail/1"] - 1)%nat ->
         ["1"; "Coq'Art"; "2023-01-01"; "2023-01-15"; "대출중"; "0"; "/Search/Detail/1"]
         !! i = cell_texts tr "td" !! raw_column i.
Proof.
  intros tr. apply (CheckoutList_parse_row_fields tr). vm_compute. reflexivity.
Defined.

(** X6.  On a [tr] with exactly five [td] cells the [href] is lost: it is
    written to the last cell, of index 4, which [del info[4]] then removes,
    and the row is the first four cells with the title at index 1.  On a
    [tr] with fewer than five cells [parse_row] raises. *)
Theorem CheckoutList_parse_row_few_cells {Tag : Type} `{DocumentQuery Tag}
    (tr : Tag) :
  (forall row strong,
     library.CheckoutList.parse_row tr = Ok row ->
     select_one tr "td a strong" = Some strong ->
     length (select tr "td") = 5%nat ->
     row = take 4 (<[1%nat:=strip (text strong)]> (cell_texts tr "td")))
  /\ ((length (select tr "td") < 5)%nat -> raises (library.CheckoutList.parse_row tr)).
Proof.
  split.
  - intros row strong Hr Hstrong H5.
    destruct (library_parse_row_eq tr row Hr)
      as (strong' & a & href & Hstrong' & _ & _ & _ & ->).
    rewrite Hstrong in Hstrong'. injection Hstrong' as <-.
    assert (Hc : length (cell_texts tr "td") = 5%nat)
      by (unfold cell_texts; now rewrite length_map).
    rewrite Hc. clear Hr Hstrong H5.
    destruct (cell_texts tr "td") as [|c0 [|c1 [|c2 [|c3 [|c4 [|c5 l]]]]]];
      try discriminate Hc. reflexivity.
  - intros Hlt. destruct (library.CheckoutList.parse_row tr) as [row|e] eqn:Hr.
    + apply library_parse_row_eq in Hr as (_ & _ & _ & _ & _ & _ & Hn & _).
      unfold cell_texts in Hn. rewrite length_map in Hn. lia.
    + now exists e.
Qed.

Lemma CheckoutList_parse_row_few_cells_witness :
  let tr :=
    Html.document
      (Samples.el "tr" ""
         [ Samples.td "1";
           Samples.el "td" "left"
             [Html.Element "a" [("href", "/Search/Detail/1")]
                [Samples.el "strong" "" [Html.Text "Coq'Art"]]];
           Samples.td "c2"; Samples.td "c3"; Samples.td "c4" ]) in
  ["1"; "Coq'Art"; "c2"; "c3"]
  = take 4 (<[1%nat:=strip (text (Samples.found (select_one tr "td a strong")))]>
              (cell_texts tr "td"))
  /\ raises (library.CheckoutList.parse_row
               (Html.document (Samples.el "tr" "" [Samples.td "1"; Samples.td "2"]))).
Proof.
  intros tr. split.
  - apply (proj1 (CheckoutList_parse_row_few_cells tr));
      vm_compute; reflexivity.
  - apply (proj2 (CheckoutList_parse_row_few_cells _)). vm_compute. lia.
Defined.

(** ** Detail pages and photos *)

Section Covers.
Context {Tag : Type} `{DocumentQuery Tag}.
Implicit Types (r : Response Tag).

Lemma getitem_of_cover r :
  getitem_of (select_one (soup r) cover_image) "src"
  = match select_one (soup r) cover_image with
    | None => Raise TypeError
    | Some img =>
        match attr img "src" with
        | Some src => Ok src
        | None => Raise (KeyError "src")
        end
    end.
Proof. unfold getitem_of, tag_getitem. now destruct (select_one _ _). Qed.
End Covers.

(** X7.  [lib.BookPhoto.parse] reads the [src] of the cover image of the
    page: without the image element it raises [TypeError], without a [src]
    attribute [KeyError]; with a [src] it returns the [ResourceData] holding
    that very string when it begins with [http://] or [https://], and the
    "could not load image" [ErrorData] otherwise. *)
Theorem lib_BookPhoto_parse_cases {Tag : Type} `{DocumentQuery Tag} (r : Response Tag) :
  (select_one (soup r) cover_image = None -> lib.BookPhoto.parse r = Raise TypeError)
  /\ (forall img,
        select_one (soup r) cover_image = Some img -> attr img "src" = None ->
        lib.BookPhoto.parse r = Raise (KeyError "src"))
  /\ (forall img src,
        select_one (soup r) cover_image = Some img -> attr img "src" = Some src ->
        lib.BookPhoto.parse r
        = if re_match_http src
          then Ok (PyResourceData [("img_url", PyStr src)] (url r))
          else Ok (PyErrorData [("title", PyStr "이미지를 불러올 수 없습니다.")] (url r))).
Proof.
  unfold lib.BookPhoto.parse. fold cover_image. rewrite getitem_of_cover.
  split; [|split].
  - now intros ->.
  - now intros img -> ->.
  - now intros img src -> ->.
Qed.

Lemma lib_BookPhoto_parse_cases_witness :
  lib.BookPhoto.parse Samples.checkout_page8 = Raise TypeError
  /\ lib.BookPhoto.parse Samples.detail_without_cover
     = Ok (PyErrorData [("title", PyStr "이미지를 불러올 수 없습니다.")]
             "https://lib.bible.ac.kr/MyLibrary").
Proof.
  split.
  - apply (proj1 (lib_BookPhoto_parse_cases Samples.checkout_page8)).
    vm_compute. reflexivity.
  - set (img := Samples.found (select_one (soup Samples.detail_without_cover) cover_image)).
    assert (Himg : select_one (soup Samples.detail_without_cover) cover_image = Some img)
      by (vm_compute; reflexivity).
    assert (Hsrc : attr img "src" = Some "/images/no-cover.gif")
      by (vm_compute; reflexivity).
    now rewrite (proj2 (proj2 (lib_BookPhoto_parse_cases Samples.detail_without_cover))
                   img _ Himg Hsrc).
Defined.

(** X8.  [library.BookDetail.parse] needs two data cells and a cover image:
    with fewer than two data cells it raises [IndexError], whatever the image;
    with them but without the image element it raises [TypeError], and
    without a [src] attribute [KeyError]; otherwise it returns the list of the
    stripped text of the second data cell and of the [src], the latter
    replaced by [None] unless it begins with [http://] or [https://]. *)
Theorem BookDetail_parse_cases {Tag : Type} `{DocumentQuery Tag} (r : Response Tag) :
  let cells := select (soup r) "#detailtoprightnew .sponge-book-list-data" in
  ((length cells < 2)%nat -> library.BookDetail.parse r = Raise IndexError)
  /\ (forall cell, cells !! 1%nat = Some cell ->
        (select_one (soup r) cover_image = None ->
         library.BookDetail.parse r = Raise TypeError)
        /\ (forall img,
              select_one (soup r) cover_image = Some img -> attr img "src" = None ->
              library.BookDetail.parse r = Raise (KeyError "src"))
        /\ (forall img src,
              select_one (soup r) cover_image = Some img -> attr img "src" = Some src ->
              library.BookDetail.parse r
              = Ok (PyList [PyStr (strip (text cell));
                            if re_match_http src then PyStr src else PyNone]))).
Proof.
  intros cells. unfold library.BookDetail.parse. fold cells. fold cover_image.
  rewrite getitem_of_cover. change 1 with (Z.of_nat 1). split.
  - intros Hlen. rewrite getitem_short by lia. reflexivity.
  - intros cell Hcell. rewrite (getitem_lookup _ _ _ Hcell). cbn [bind].
    split; [|split].
    + now intros ->.
    + now intros img -> ->.
    + intros img src -> ->. cbn [bind]. now destruct (re_match_http src).
Qed.

Lemma BookDetail_parse_cases_witness :
  library.BookDetail.parse Samples.checkout_page8 = Raise IndexError
  /\ library.BookDetail.parse Samples.detail_without_cover
     = Ok (PyList [PyStr "9783540208549"; PyNone]).
Proof.
  split.
  - apply (proj1 (BookDetail_parse_cases Samples.checkout_page8)). vm_compute. lia.
  - set (r := Samples.detail_without_cover).
    set (cell := Samples.found
                   (select (soup r) "#detailtoprightnew .sponge-book-list-data" !! 1%nat)).
    set (img := Samples.found (select_one (soup r) cover_image)).
    assert (Hcell : select (soup r) "#detailtoprightnew .sponge-book-list-data" !! 1%nat
                    = Some cell) by (vm_compute; reflexivity).
    assert (Himg : select_one (soup r) cover_image = Some img)
      by (vm_compute; reflexivity).
    assert (Hsrc : attr img "src" = Some "/images/no-cover.gif")
      by (vm_compute; reflexivity).
    rewrite (proj2 (proj2 (proj2 (BookDetail_parse_cases r) cell Hcell)) img _ Himg Hsrc).
    vm_compute. reflexivity.
Defined.

(** X9.  The two variants agree on the cover: when [library.BookDetail.parse]
    returns a list whose image entry is a URL, [lib.BookPhoto.parse] of the
    same response returns the [ResourceData] of that URL, and when the image
    entry is [None], [lib.BookPhoto.parse] returns an [ErrorData]. *)
Theorem BookDetail_agrees_with_BookPhoto {Tag : Type} `{DocumentQuery Tag}
    (r : Response Tag) (isbn img : pyobj) :
  library.BookDetail.parse r = Ok (PyList [isbn; img]) ->
  (img = PyNone /\ exists e, lib.BookPhoto.parse r = Ok (PyErrorData e (url r)))
  \/ (exists u, img = PyStr u
                /\ re_match_http u = true
                /\ lib.BookPhoto.parse r
                   = Ok (PyResourceData [("img_url", PyStr u)] (url r))).
Proof.
  unfold library.BookDetail.parse, lib.BookPhoto.parse. intros Hv.
  apply bind_Ok in Hv as (cell & _ & Hv).
  apply bind_Ok in Hv as (src & Hsrc & Hv). rewrite Hsrc. cbn [bind].
  destruct (re_match_http src) eqn:Hm; cbn [negb] in Hv; injection Hv as _ <-.
  - right. exists src. auto.
  - left. split; [reflexivity|]. eauto.
Qed.

Lemma BookDetail_agrees_with_BookPhoto_witness :
  (PyStr "https://image.example/1.jpg" = PyNone
   /\ exists e, lib.BookPhoto.parse Samples.detail_with_cover
                = Ok (PyErrorData e (url Samples.detail_with_cover)))
  \/ (exists u, PyStr "https://image.example/1.jpg" = PyStr u
                /\ re_match_http u = true
                /\ lib.BookPhoto.parse Samples.detail_with_cover
                   = Ok (PyResourceData [("img_url", PyStr u)]
                           (url Samples.detail_with_cover))).
Proof.
  apply (BookDetail_agrees_with_BookPhoto Samples.detail_with_cover
           (PyStr "9783540208549")).
  vm_compute. reflexivity.
Defined.

(** X10.  [library.BookPhoto.parse] raises exactly when the response has no
    [content-type] header, and then it raises [KeyError]; the body and the
    document are never consulted for that. *)
Theorem library_BookPhoto_parse_raises {Tag : Type} (r : Response Tag) :
  (headers_get (headers r) "content-type" = None ->
   library.BookPhoto.parse r = Raise (KeyError "content-type"))
  /\ (forall e, library.BookPhoto.parse r = Raise e ->
        e = KeyError "content-type"
        /\ headers_get (headers r) "content-type" = None).
Proof.
  unfold library.BookPhoto.parse, headers_getitem. split.
  - now intros ->.
  - intros e. destruct (headers_get (headers r) "content-type") as [ct|]; cbn [bind].
    + destruct (String.eqb _ _); discriminate.
    + now intros [= <-].
Qed.

Lemma library_BookPhoto_parse_raises_witness :
  library.BookPhoto.parse Samples.checkout_page8 = Raise (KeyError "content-type").
Proof.
  apply (proj1 (library_BookPhoto_parse_raises Samples.checkout_page8)).
  reflexivity.
Defined.

(** ** Login: error codes and exceptions *)

(** X11.  The code of an [ErrorData] that [library.Login.parse] returns is
    read from the [location] header: it follows [ErrorCode=] there, it is not
    empty, and it is exactly the run of decimal digits with which the text
    after [ErrorCode=] begins. *)
Theorem redirect_login_error_code_digits {Tag : Type} `{DocumentQuery Tag}
    `{DateConversion} (r : Response Tag) (error : list (string * pyobj))
    (l : string) (code : pyobj) :
  library.Login.parse r = Ok (PyErrorData error l) ->
  dict_get error "code" = Some code ->
  exists loc pre n rest,
    headers_get (headers r) "location" = Some loc
    /\ code = PyStr n
    /\ loc = pre +:+ "ErrorCode=" +:+ n +:+ rest
    /\ n <> ""
    /\ n = digits_prefix (n +:+ rest).
Proof.
  intros Hv Hcode.
  destruct (library_Login_parse_inv r _ Hv)
    as [(a & _ & _ & Heq) | [(loc & n & Hloc & Hn & Heq) | (loc & d & t & _ & _ & _ & _ & Heq)]];
    try discriminate Heq; injection Heq as -> ->; try discriminate Hcode.
  injection Hcode as <-.
  destruct (re_search_ErrorCode_sound loc n Hn) as (pre & after & Hs & Hd & Hne).
  destruct (digits_prefix_split after) as [rest Hafter].
  rewrite <- Hd in Hafter.
  exists loc, pre, n, rest. repeat split; auto; now rewrite <- Hafter.
Qed.

Lemma redirect_login_error_code_digits_witness :
  exists loc pre n rest,
    headers_get (headers Samples.logon_error7) "location" = Some loc
    /\ PyStr "7" = PyStr n
    /\ loc = pre +:+ "ErrorCode=" +:+ n +:+ rest
    /\ n <> ""
    /\ n = digits_prefix (n +:+ rest).
Proof.
  apply (redirect_login_error_code_digits Samples.logon_error7
           [("code", PyStr "7")] "https://lib.bible.ac.kr/MyLibrary").
  - vm_compute. reflexivity.
  - reflexivity.
Defined.

(** X12.  A [location] header that contains [ErrorCode=] followed by a digit
    always gives an [ErrorData] with a code: neither the [date] header nor
    the markup is looked at, and no [ResourceData] is returned. *)
Theorem redirect_login_error_code_wins {Tag : Type} `{DocumentQuery Tag}
    `{DateConversion} (r : Response Tag) (pre rest : string) (c : ascii) :
  headers_get (headers r) "location" = Some (pre +:+ "ErrorCode=" +:+ String c rest) ->
  is_ascii_digit c = true ->
  exists n, library.Login.parse r = Ok (PyErrorData [("code", PyStr n)] (url r)).
Proof.
  intros Hloc Hc.
  destruct (re_search_ErrorCode_complete pre rest c Hc) as [n Hn].
  exists n. now apply library_Login_error_code with (pre +:+ "ErrorCode=" +:+ String c rest).
Qed.

Lemma redirect_login_error_code_wins_witness :
  exists n,
    library.Login.parse
      (Samples.response 302 [("location", "/LogOn?ErrorCode=12&next=3")]
         (Samples.el "html" "" []))
    = Ok (PyErrorData [("code", PyStr n)] "https://lib.bible.ac.kr/MyLibrary").
Proof.
  apply (redirect_login_error_code_wins
           (Samples.response 302 [("location", "/LogOn?ErrorCode=12&next=3")]
              (Samples.el "html" "" []))
           "/LogOn?" "2&next=3" "1"); reflexivity.
Defined.

(** X13.  [library.Login.parse] raises in three situations only: with
    [AttributeError] when the response has neither a [location] header nor a
    warning-alert element; with [KeyError] when a [location] without error
    code comes without a [date] header; and with the error of the date
    conversion when that header does not convert. *)
Theorem redirect_login_raises {Tag : Type} `{DocumentQuery Tag} `{DateConversion}
    (r : Response Tag) (e : exn (Response Tag)) :
  library.Login.parse r = Raise e ->
  (e = AttributeError
   /\ headers_get (headers r) "location" = None
   /\ select_one (soup r) ".alert-warning" = None)
  \/ (exists loc,
        headers_get (headers r) "location" = Some loc
        /\ re_search_ErrorCode loc = None
        /\ ((e = KeyError "date" /\ headers_get (headers r) "date" = None)
            \/ (exists d, e = ConversionError d
                          /\ headers_get (headers r) "date" = Some d
                          /\ httpdate_to_unixtime d = None))).
Proof.
  intros He.
  destruct (headers_get (headers r) "location") as [loc|] eqn:Hloc.
  - right. exists loc. split; [reflexivity|].
    destruct (re_search_ErrorCode loc) as [n|] eqn:Hn.
    + rewrite (library_Login_error_code r loc n Hloc Hn) in He. discriminate.
    + split; [reflexivity|].
      rewrite (library_Login_redirected r loc Hloc Hn) in He.
      unfold headers_getitem, convert_date in He.
      destruct (headers_get (headers r) "date") as [d|] eqn:Hd; cbn [bind] in He.
      * right. exists d. destruct (httpdate_to_unixtime d); [discriminate|].
        injection He as <-. auto.
      * left. injection He as <-. auto.
  - left. destruct (select_one (soup r) ".alert-warning") as [a|] eqn:Ha.
    + rewrite (library_Login_no_location r a Hloc Ha) in He. discriminate.
    + rewrite (library_Login_no_location_no_alert r Hloc Ha) in He.
      injection He as <-. auto.
Qed.

Lemma redirect_login_raises_witness :
  let r := Samples.logon_ok_undated in
  let e : exn (Response Html.Tag) := KeyError "date" in
  (e = AttributeError
   /\ headers_get (headers r) "location" = None
   /\ select_one (soup r) ".alert-warning" = None)
  \/ (exists loc,
        headers_get (headers r) "location" = Some loc
        /\ re_search_ErrorCode loc = None
        /\ ((e = KeyError "date" /\ headers_get (headers r) "date" = None)
            \/ (exists d, e = ConversionError d
                          /\ headers_get (headers r) "date" = Some d
                          /\ httpdate_to_unixtime d = None))).
Proof.
  intros r e. apply (redirect_login_raises r e). vm_compute. reflexivity.
Defined.

(** X14.  [lib.Login.parse] raises for the first thing it misses, in the
    order in which it reads: [AttributeError] without the info box,
    [IndexError] when the box has fewer than two list items, [KeyError]
    without a [date] header, and the error of the date conversion when the
    header does not convert; it raises nothing else. *)
Theorem markup_login_raises {Tag : Type} `{DocumentQuery Tag} `{DateConversion}
    (r : Response Tag) (cookies : list (string * string)) (e : exn (Response Tag)) :
  lib.Login.parse r cookies = Raise e ->
  (e = AttributeError /\ select_one (soup r) info_box = None)
  \/ (exists ul,
        select_one (soup r) info_box = Some ul
        /\ ((e = IndexError /\ (length (select ul "li") < 2)%nat)
            \/ ((2 <= length (select ul "li"))%nat
                /\ ((e = KeyError "date" /\ headers_get (headers r) "date" = None)
                    \/ (exists d, e = ConversionError d
                                  /\ headers_get (headers r) "date" = Some d
                                  /\ httpdate_to_unixtime d = None))))).
Proof.
  intros He.
  destruct (select_one (soup r) info_box) as [ul|] eqn:Hbox.
  - right. exists ul. split; [reflexivity|].
    destruct (le_lt_dec 2 (length (select ul "li"))) as [Hlen|Hlen].
    + right. split; [exact Hlen|].
      destruct (lookup_lt_is_Some_2 (select ul "li") 1%nat Hlen) as [li Hli].
      destruct (headers_get (headers r) "date") as [d|] eqn:Hd.
      * right. exists d.
        destruct (httpdate_to_unixtime d) as [t|] eqn:Ht.
        -- rewrite (lib_Login_parse_run r cookies ul li d t Hbox Hli Hd Ht) in He.
           destruct (String.eqb _ _); discriminate.
        -- unfold lib.Login.parse in He. unfold info_box in Hbox.
           rewrite Hbox in He. cbn [select_of bind] in He.
           change 1 with (Z.of_nat 1) in He.
           rewrite (getitem_lookup _ _ _ Hli) in He. cbn [bind] in He.
           unfold headers_getitem, convert_date in He. rewrite Hd in He.
           cbn [bind] in He. rewrite Ht in He. cbn [bind] in He.
           injection He as <-. auto.
      * left. unfold lib.Login.parse in He. unfold info_box in Hbox.
        rewrite Hbox in He. cbn [select_of bind] in He.
        change 1 with (Z.of_nat 1) in He.
        rewrite (getitem_lookup _ _ _ Hli) in He. cbn [bind] in He.
        unfold headers_getitem in He. rewrite Hd in He. cbn [bind] in He.
        injection He as <-. auto.
    + left. rewrite (lib_Login_parse_no_second_item r cookies ul Hbox Hlen) in He.
      injection He as <-. auto.
  - left. rewrite (lib_Login_parse_no_info_box r cookies Hbox) in He.
    injection He as <-. auto.
Qed.

Lemma markup_login_raises_witness :
  let r := Samples.logon_alert in
  let e : exn (Response Html.Tag) := AttributeError in
  (e = AttributeError /\ select_one (soup r) info_box = None)
  \/ (exists ul,
        select_one (soup r) info_box = Some ul
        /\ ((e = IndexError /\ (length (select ul "li") < 2)%nat)
            \/ ((2 <= length (select ul "li"))%nat
                /\ ((e = KeyError "date" /\ headers_get (headers r) "date" = None)
                    \/ (exists d, e = ConversionError d
                                  /\ headers_get (headers r) "date" = Some d
                                  /\ httpdate_to_unixtime d = None))))).
Proof.
  intros r e. apply (markup_login_raises r [] e). vm_compute. reflexivity.
Defined.

(** ** The credentials that [Login.fetch] posts *)

Lemma string_ind3 (P : string -> Prop) :
  P "" ->
  (forall x, P (String x "")) ->
  (forall x y, P (String x (String y ""))) ->
  (forall x y z s, P s -> P (String x (String y (String z s)))) ->
  forall s, P s.
Proof.
  intros H0 H1 H2 H3 s.
  enough (P s /\ (forall x, P (String x s)) /\ (forall x y, P (String x (String y s))))
    by tauto.
  induction s as [|z s (IH0 & IH1 & IH2)]; [now auto|].
  split; [apply IH1|]. split; [intros x; apply IH2|].
  intros x y. now apply H3.
Qed.

Lemma b64_sextet_char (x : sextet) : b64_sextet (b64_char x) = Some x.
Proof.
  destruct x as [[[[[[] []] []] []] []] []]; vm_compute; reflexivity.
Qed.

Lemma b64_char_not_pad (x : sextet) : Ascii.eqb (b64_char x) "=" = false.
Proof.
  destruct x as [[[[[[] []] []] []] []] []]; vm_compute; reflexivity.
Qed.

Lemma b64_char_symbol (x : sextet) : b64_symbol (b64_char x) = true.
Proof.
  destruct x as [[[[[[] []] []] []] []] []]; vm_compute; reflexivity.
Qed.

(** Decoding undoes encoding. *)
Lemma b64_roundtrip (s : string) : b64decode (b64encode s) = Some s.
Proof.
  induction s as [| x | x y | x y z s IH] using string_ind3.
  - reflexivity.
  - destruct x as [x0 x1 x2 x3 x4 x5 x6 x7].
    cbn [b64encode b64decode]. rewrite !b64_sextet_char. reflexivity.
  - destruct x as [x0 x1 x2 x3 x4 x5 x6 x7], y as [y0 y1 y2 y3 y4 y5 y6 y7].
    cbn [b64encode b64decode].
    rewrite !b64_sextet_char, b64_char_not_pad. reflexivity.
  - destruct x as [x0 x1 x2 x3 x4 x5 x6 x7], y as [y0 y1 y2 y3 y4 y5 y6 y7],
      z as [z0 z1 z2 z3 z4 z5 z6 z7].
    cbn [b64encode b64decode].
    rewrite !b64_sextet_char, b64_char_not_pad, IH. reflexivity.
Qed.

Lemma b64encode_symbols (s : string) : all_b64_symbols (b64encode s) = true.
Proof.
  induction s as [| x | x y | x y z s IH] using string_ind3.
  - reflexivity.
  - destruct x as [x0 x1 x2 x3 x4 x5 x6 x7].
    cbn [b64encode all_b64_symbols]. rewrite !b64_char_symbol. reflexivity.
  - destruct x as [x0 x1 x2 x3 x4 x5 x6 x7], y as [y0 y1 y2 y3 y4 y5 y6 y7].
    cbn [b64encode all_b64_symbols]. rewrite !b64_char_symbol. reflexivity.
  - destruct x as [x0 x1 x2 x3 x4 x5 x6 x7], y as [y0 y1 y2 y3 y4 y5 y6 y7],
      z as [z0 z1 z2 z3 z4 z5 z6 z7].
    cbn [b64encode all_b64_symbols]. rewrite !b64_char_symbol, IH. reflexivity.
Qed.

Lemma b64encode_length (s : string) :
  String.length (b64encode s) = (4 * ((String.length s + 2) / 3))%nat.
Proof.
  induction s as [| x | x y | x y z s IH] using string_ind3.
  - reflexivity.
  - now destruct x.
  - now destruct x, y.
  - destruct x as [x0 x1 x2 x3 x4 x5 x6 x7], y as [y0 y1 y2 y3 y4 y5 y6 y7],
      z as [z0 z1 z2 z3 z4 z5 z6 z7].
    cbn [b64encode String.length]. rewrite IH.
    replace (S (S (S (String.length s))) + 2)%nat
      with (String.length s + 2 + 1 * 3)%nat by lia.
    rewrite Nat.div_add by lia. lia.
Qed.

(** X15.  [Login.fetch], in both modules, posts to the log-on URL a form with
    the two fields [l_id] and [l_pass], from which Base64 decoding gives back
    the user id and the password exactly, and hands headers, timeout and the
    further keyword arguments to the transport, provided the further
    arguments repeat none of the keywords [headers], [body] and [timeout]
    that the call passes itself; when they do, the call raises
    [TypeError]. *)
Theorem Login_fetch_credentials {Timeout Reply : Type} `{HTTPClient Timeout Reply}
    (user_id user_pw : string) (headers : option (list (string * string)))
    (timeout : option Timeout) (kwargs : list (string * pyobj)) :
  (keyword_clash ["headers"; "body"; "timeout"] kwargs = false ->
   exists form,
     lib.Login.fetch user_id user_pw headers timeout kwargs
     = Ok (connector_post "https://lib.bible.ac.kr/Account/LogOn" headers form timeout
             kwargs)
     /\ library.Login.fetch user_id user_pw headers timeout kwargs
        = Ok (connector_post "https://lib.bible.ac.kr/Account/LogOn" headers form
                timeout kwargs)
     /\ map fst form = ["l_id"; "l_pass"]
     /\ match form_get form "l_id" with Some v => b64decode v | None => None end
        = Some user_id
     /\ match form_get form "l_pass" with Some v => b64decode v | None => None end
        = Some user_pw)
  /\
  (keyword_clash ["headers"; "body"; "timeout"] kwargs = true ->
   lib.Login.fetch user_id user_pw headers timeout kwargs = Raise TypeError
   /\ library.Login.fetch user_id user_pw headers timeout kwargs = Raise TypeError).
Proof.
  unfold lib.Login.fetch, library.Login.fetch. split; intros ->.
  - exists [("l_id", b64encode user_id); ("l_pass", b64encode user_pw)].
    repeat split; cbn [form_get String.eqb]; try reflexivity; apply b64_roundtrip.
  - split; reflexivity.
Qed.

Lemma Login_fetch_credentials_witness :
  (exists form,
     lib.Login.fetch "20181234" "p@ss" None (Some 5%nat) [("ssl", PyNone)]
     = Ok (Samples.Post "https://lib.bible.ac.kr/Account/LogOn" None form (Some 5%nat)
             [("ssl", PyNone)])
     /\ library.Login.fetch "20181234" "p@ss" None (Some 5%nat) [("ssl", PyNone)]
        = Ok (Samples.Post "https://lib.bible.ac.kr/Account/LogOn" None form
                (Some 5%nat) [("ssl", PyNone)])
     /\ map fst form = ["l_id"; "l_pass"]
     /\ match form_get form "l_id" with Some v => b64decode v | None => None end
        = Some "20181234"
     /\ match form_get form "l_pass" with Some v => b64decode v | None => None end
        = Some "p@ss")
  /\ (lib.Login.fetch "20181234" "p@ss" None (Some 5%nat) [("body", PyDict [])]
      = Raise TypeError
      /\ library.Login.fetch "20181234" "p@ss" None (Some 5%nat) [("body", PyDict [])]
         = Raise TypeError).
Proof.
  split.
  - apply (proj1 (Login_fetch_credentials (H := Samples.recorder)
                    "20181234" "p@ss" None (Some 5%nat) [("ssl", PyNone)])).
    reflexivity.
  - apply (proj2 (Login_fetch_credentials (H := Samples.recorder)
                    "20181234" "p@ss" None (Some 5%nat) [("body", PyDict [])])).
    reflexivity.
Defined.

(** X16.  The two fields that [Login.fetch] posts are Base64 text: only
    characters of the Base64 alphabet and the padding, four for every three
    bytes of the credential, the last group filled up. *)
Theorem Login_fetch_form_text {Timeout Reply : Type} `{HTTPClient Timeout Reply}
    (user_id user_pw : string) (headers : option (list (string * string)))
    (timeout : option Timeout) (kwargs : list (string * pyobj)) :
  exists id_text pw_text,
    lib.Login.fetch user_id user_pw headers timeout kwargs
    = (if keyword_clash ["headers"; "body"; "timeout"] kwargs then Raise TypeError
       else Ok (connector_post lib.Login.URL headers
                  [("l_id", id_text); ("l_pass", pw_text)] timeout kwargs))
    /\ library.Login.fetch user_id user_pw headers timeout kwargs
       = (if keyword_clash ["headers"; "body"; "timeout"] kwargs then Raise TypeError
          else Ok (connector_post library.Login.URL headers
                     [("l_id", id_text); ("l_pass", pw_text)] timeout kwargs))
    /\ all_b64_symbols id_text = true
    /\ all_b64_symbols pw_text = true
    /\ String.length id_text = (4 * ((String.length user_id + 2) / 3))%nat
    /\ String.length pw_text = (4 * ((String.length user_pw + 2) / 3))%nat.
Proof.
  exists (b64encode user_id), (b64encode user_pw).
  repeat split; auto using b64encode_symbols, b64encode_length.
Qed.

(** ** The gated table parsers as a whole *)

(** X17.  When no precondition check blocks the response and the header row
    is not found, the gated [parse] raises the [ParsingError] of the missing
    table head, carrying the response; the head is looked for first, so this
    holds whether or not the body has rows. *)
Theorem parse_without_header_row {Tag : Type} `{DocumentQuery Tag}
    `{IParserPrecondition Tag} (r : Response Tag) :
  first_blocking registered r = None ->
  select_one (soup r) head_row = None ->
  outcome (lib.Library.parse r) = Raise (ParsingError no_head_message r)
  /\ outcome (library.CheckoutList.parse r) = Raise (ParsingError no_head_message r).
Proof.
  intros Hs Hsel. rewrite lib_parse_outcome, library_parse_outcome, Hs.
  unfold lib.Library.parse_undecorated, lib.Library.parse_subject,
    library.CheckoutList.parse_undecorated, library.CheckoutList.parse_subject.
  unfold head_row in Hsel. rewrite Hsel. split; reflexivity.
Qed.

Lemma parse_without_header_row_witness :
  outcome (lib.Library.parse Samples.logon_alert)
  = Raise (ParsingError no_head_message Samples.logon_alert)
  /\ outcome (library.CheckoutList.parse Samples.logon_alert)
     = Raise (ParsingError no_head_message Samples.logon_alert).
Proof.
  apply (parse_without_header_row Samples.logon_alert).
  - vm_compute. reflexivity.
  - vm_compute. reflexivity.
Defined.

(** X18.  A gated table parser returns an [ErrorData] exactly when a
    registered check blocks the response: what it returns then is the error
    of the first check that blocks, linked to the URL of the response, and
    what it returns when no check blocks is a [ResourceData] with the two
    entries [head] and [body]. *)
Theorem gated_parse_variant_by_gate {Tag : Type} `{DocumentQuery Tag}
    `{IParserPrecondition Tag} (r : Response Tag) (v : pyobj) :
  outcome (lib.Library.parse r) = Ok v \/ outcome (library.CheckoutList.parse r) = Ok v ->
  (first_blocking registered r = Some v
   /\ is_ErrorData v = true /\ link_of v = Some (url r))
  \/ (first_blocking registered r = None
      /\ exists head body,
           v = PyResourceData [("head", str_list head); ("body", str_table body)] (url r)).
Proof.
  rewrite lib_parse_outcome, library_parse_outcome.
  destruct (first_blocking registered r) as [err|] eqn:Hgate.
  - intros Hv. left. assert (err = v) as -> by (destruct Hv as [[= ->] | [= ->]]; reflexivity).
    split; [reflexivity|]. now apply blocked_is_ErrorData.
  - intros [Hv | Hv]; right; (split; [reflexivity|]).
    + apply lib_parse_undecorated_inv in Hv as (head & body & _ & _ & ->). eauto.
    + apply library_parse_undecorated_inv in Hv as (head & body & _ & _ & ->). eauto.
Qed.

Lemma gated_parse_variant_by_gate_witness :
  let r := Samples.checkout_expired in
  let v := session_expired r in
  (first_blocking registered r = Some v
   /\ is_ErrorData v = true /\ link_of v = Some (url r))
  \/ (first_blocking registered r = None
      /\ exists head body,
           v = PyResourceData [("head", str_list head); ("body", str_table body)] (url r)).
Proof.
  intros r v. apply (gated_parse_variant_by_gate r v). left. reflexivity.
Defined.
